(** * Token vesting: the on-chain vesting arithmetic and its frontend mirror

    The development embeds two layers of the repository:

    - the Anchor program, as far as the repository shows it: the
      [VestingSchedule] account and its [calculate_vested_amount] method
      (state.rs), the validation sequence of the create instruction
      (create_vesting.rs) and the revoke instruction (revoke.rs);
    - the frontend helpers of [frontend/src/utils/program.ts]:
      [calculateVestedAmount], [calculateClaimableAmount],
      [formatTokenAmount] and [parseTokenAmount], over bn.js integers and
      JavaScript numbers.

    Rust machine integers are integers of [Z] with the range checks and
    the casts written out; a bn.js [BN] is an unbounded signed integer; a
    JavaScript number holding an integer is that integer, rounded to the
    nearest double whenever an operation produces it. *)

From Stdlib Require Import ZArith Lia List String Ascii Bool.
Import ListNotations.

Local Open Scope Z_scope.

(** * Results *)

Inductive result (E A : Type) : Type :=
| Ok (a : A)
| Err (e : E).

Arguments Ok {E A} a.
Arguments Err {E A} e.

Definition bind {E A B : Type} (r : result E A) (k : A -> result E B)
  : result E B :=
  match r with
  | Ok a => k a
  | Err e => Err e
  end.

Definition ok_or {E A : Type} (o : option A) (e : E) : result E A :=
  match o with
  | Some a => Ok a
  | None => Err e
  end.

(** [require!(cond, error)] of Anchor. *)
Definition require {E : Type} (cond : bool) (e : E) : result E unit :=
  if cond then Ok tt else Err e.

Declare Scope result_scope.
Delimit Scope result_scope with result.

Notation "x <- r ;; k" := (bind r (fun x => k))
  (at level 61, r at next level, right associativity) : result_scope.
Notation "r ;;; k" := (bind r (fun _ => k))
  (at level 61, right associativity) : result_scope.

Local Open Scope result_scope.

(** * Rust machine integers *)

Module Int.

Definition u64_max : Z := 2 ^ 64 - 1.
Definition u128_max : Z := 2 ^ 128 - 1.
Definition i64_min : Z := - 2 ^ 63.
Definition i64_max : Z := 2 ^ 63 - 1.

Definition in_u64 (x : Z) : Prop := 0 <= x <= u64_max.
Definition in_i64 (x : Z) : Prop := i64_min <= x <= i64_max.

Definition in_u64b (x : Z) : bool := (0 <=? x) && (x <=? u64_max).
Definition in_u128b (x : Z) : bool := (0 <=? x) && (x <=? u128_max).
Definition in_i64b (x : Z) : bool := (i64_min <=? x) && (x <=? i64_max).

(** [x as u64], [x as u128]: reinterpretation modulo the width (a negative
    [i64] is sign-extended, so it lands at [2^w + x]). *)
Definition as_u64 (x : Z) : Z := x mod 2 ^ 64.
Definition as_u128 (x : Z) : Z := x mod 2 ^ 128.

(** Two's-complement wrap-around of an [i64] result. *)
Definition wrap_i64 (x : Z) : Z := (x + 2 ^ 63) mod 2 ^ 64 - 2 ^ 63.

Definition i64_checked_add (x y : Z) : option Z :=
  if in_i64b (x + y) then Some (x + y) else None.

Definition u64_checked_mul (x y : Z) : option Z :=
  if in_u64b (x * y) then Some (x * y) else None.

Definition u64_checked_div (x y : Z) : option Z :=
  if y =? 0 then None else Some (x / y).

Definition u64_checked_sub (x y : Z) : option Z :=
  if in_u64b (x - y) then Some (x - y) else None.

Definition u64_saturating_sub (x y : Z) : Z :=
  if x <? y then 0 else x - y.

Definition u128_checked_mul (x y : Z) : option Z :=
  if in_u128b (x * y) then Some (x * y) else None.

Definition u128_checked_div (x y : Z) : option Z :=
  if y =? 0 then None else Some (x / y).

End Int.

Create HintDb ranges.
#[global] Hint Unfold Int.in_u64 Int.in_i64 Int.u64_max Int.i64_min
  Int.i64_max : ranges.

(** A public key, by its base58 text. *)
Definition Pubkey : Type := string.

(** * constants.rs *)

Module Constants.

Definition MIN_VESTING_DURATION : Z := 86400.
Definition MAX_VESTING_DURATION : Z := 315360000.
Definition MAX_CLIFF_PERCENTAGE : Z := 50.

End Constants.

(** * error.rs *)

Module Error.

(** Modelled from the spec: error.rs is shown only in part (it ends in
    "more errors").  The variants the instruction handlers and the tests
    name are [InvalidAmount], [DurationTooShort], [DurationTooLong],
    [CliffPercentageTooHigh], [StartTimeInPast], [CalculationOverflow],
    [CliffNotReached], [VestingRevoked] and [VestingCompleted]; the
    variants [InvalidCliff], [NothingToClaim] and [AlreadyRevoked] are
    those of the specification's error list. *)
Inductive VestingError : Type :=
| InvalidAmount
| DurationTooShort
| DurationTooLong
| InvalidCliff
| CliffPercentageTooHigh
| StartTimeInPast
| CalculationOverflow
| CliffNotReached
| NothingToClaim
| VestingRevoked
| AlreadyRevoked
| VestingCompleted.

End Error.

Import Error.

Definition Result (A : Type) : Type := result VestingError A.

(** * state.rs *)

Module State.

Import Int.

Record VestingSchedule : Type := mkVestingSchedule {
  admin : Pubkey;
  beneficiary : Pubkey;
  mint : Pubkey;
  total_amount : Z;      (* u64 *)
  claimed_amount : Z;    (* u64 *)
  start_time : Z;        (* i64 *)
  cliff_duration : Z;    (* i64 *)
  vesting_duration : Z;  (* i64 *)
  is_revoked : bool;
  revoked_amount : Z;    (* u64 *)
  bump : Z;              (* u8 *)
  vault_bump : Z         (* u8 *)
}.

(** The fields hold values of their Rust types. *)
Record well_typed (s : VestingSchedule) : Prop := {
  wt_total : in_u64 (total_amount s);
  wt_claimed : in_u64 (claimed_amount s);
  wt_start : in_i64 (start_time s);
  wt_cliff : in_i64 (cliff_duration s);
  wt_duration : in_i64 (vesting_duration s);
  wt_revoked : in_u64 (revoked_amount s)
}.

(** [VestingSchedule::calculate_vested_amount].  The subtraction
    [current_time - self.start_time] is the one unchecked operation of the
    method; it is written here with the wrap-around of a build without
    overflow checks. *)
Definition calculate_vested_amount (self : VestingSchedule) (current_time : Z)
  : Result Z :=
  if is_revoked self then
    Ok (u64_saturating_sub (total_amount self) (revoked_amount self))
  else
    cliff_end <- ok_or (i64_checked_add (start_time self) (cliff_duration self))
                       CalculationOverflow ;;
    if current_time <? cliff_end then Ok 0
    else
      vesting_end <- ok_or (i64_checked_add (start_time self)
                                            (vesting_duration self))
                           CalculationOverflow ;;
      if current_time >=? vesting_end then Ok (total_amount self)
      else
        let elapsed := as_u128 (wrap_i64 (current_time - start_time self)) in
        let duration := as_u128 (vesting_duration self) in
        let total := as_u128 (total_amount self) in
        p <- ok_or (u128_checked_mul total elapsed) CalculationOverflow ;;
        vested <- ok_or (u128_checked_div p duration) CalculationOverflow ;;
        Ok (as_u64 vested).

(** Modelled from the spec: [is_fully_vested] is called by the revoke
    instruction but its body is not among the program sources shown.  The
    specification refuses revocation when the vested amount equals the
    total amount; the method returns a plain [bool], so a failing
    computation of the vested amount counts as not fully vested and
    surfaces in the next step. *)
Definition is_fully_vested (self : VestingSchedule) (current_time : Z) : bool :=
  match calculate_vested_amount self current_time with
  | Ok vested => vested =? total_amount self
  | Err _ => false
  end.

(** Modelled from the spec: [calculate_unvested_amount] is called by the
    revoke instruction but its body is not among the program sources
    shown.  The specification computes the total amount minus the vested
    amount with a checked subtraction. *)
Definition calculate_unvested_amount (self : VestingSchedule)
  (current_time : Z) : Result Z :=
  vested <- calculate_vested_amount self current_time ;;
  ok_or (u64_checked_sub (total_amount self) vested) CalculationOverflow.

End State.

(** * instructions/create_vesting.rs *)

Module CreateVesting.

Import Int Constants State.

(** The accounts of the instruction, as far as the handler reads them. *)
Record Context : Type := mkContext {
  ctx_admin : Pubkey;
  ctx_beneficiary : Pubkey;
  ctx_mint : Pubkey;
  ctx_bump : Z;
  ctx_vault_bump : Z
}.

(** Modelled from the spec: the two validations that the specification
    places between the minimum-duration check and the cliff-percentage
    check (steps 3 and 4 of its creation sequence), which the part of the
    handler shown in the repository does not include. *)
Definition require_max_duration_and_cliff (cliff_duration vesting_duration : Z)
  : Result unit :=
  require (vesting_duration <=? MAX_VESTING_DURATION) DurationTooLong ;;;
  require (cliff_duration <=? vesting_duration) InvalidCliff.

(** Modelled from the spec: the handler's field assignments are elided in
    the repository ("set all fields"); the specification gives the
    initial values [claimed_amount = 0], [is_revoked = false] and
    [revoked_amount = 0], the other fields being the arguments. *)
Definition init_schedule (ctx : Context)
  (total_amount start_time cliff_duration vesting_duration : Z)
  : VestingSchedule :=
  {| admin := ctx_admin ctx;
     beneficiary := ctx_beneficiary ctx;
     mint := ctx_mint ctx;
     total_amount := total_amount;
     claimed_amount := 0;
     start_time := start_time;
     cliff_duration := cliff_duration;
     vesting_duration := vesting_duration;
     is_revoked := false;
     revoked_amount := 0;
     bump := ctx_bump ctx;
     vault_bump := ctx_vault_bump ctx |}.

(** The cliff-percentage computation of the handler. *)
Definition cliff_percentage (cliff_duration vesting_duration : Z) : Result Z :=
  m <- ok_or (u64_checked_mul (as_u64 cliff_duration) 100)
             CalculationOverflow ;;
  ok_or (u64_checked_div m (as_u64 vesting_duration)) CalculationOverflow.

(** [handler]: the validations in the order of the source, then the
    initialised account.  [unix_timestamp] is [Clock::get()?.unix_timestamp];
    the transfer of [total_amount] to the vault and the event are effects
    on other accounts and are not part of the returned value. *)
Definition handler (ctx : Context)
  (total_amount start_time cliff_duration vesting_duration : Z)
  (unix_timestamp : Z) : Result VestingSchedule :=
  require (total_amount >? 0) InvalidAmount ;;;
  require (vesting_duration >=? MIN_VESTING_DURATION) DurationTooShort ;;;
  require_max_duration_and_cliff cliff_duration vesting_duration ;;;
  pct <- cliff_percentage cliff_duration vesting_duration ;;
  require (pct <=? MAX_CLIFF_PERCENTAGE) CliffPercentageTooHigh ;;;
  require (start_time >? unix_timestamp) StartTimeInPast ;;;
  Ok (init_schedule ctx total_amount start_time cliff_duration
                    vesting_duration).

End CreateVesting.

(** * instructions/revoke.rs *)

Module Revoke.

Import Int State.

Definition set_revoked (s : VestingSchedule) (unvested : Z) : VestingSchedule :=
  {| admin := admin s;
     beneficiary := beneficiary s;
     mint := mint s;
     total_amount := total_amount s;
     claimed_amount := claimed_amount s;
     start_time := start_time s;
     cliff_duration := cliff_duration s;
     vesting_duration := vesting_duration s;
     is_revoked := true;
     revoked_amount := unvested;
     bump := bump s;
     vault_bump := vault_bump s |}.

(** [handler]: returns the amount sent back to the admin together with the
    updated account.  The transfer itself happens only when the amount is
    positive; the account is updated either way. *)
Definition handler (vesting_schedule : VestingSchedule) (unix_timestamp : Z)
  : Result (Z * VestingSchedule) :=
  require (negb (is_revoked vesting_schedule)) VestingRevoked ;;;
  require (negb (is_fully_vested vesting_schedule unix_timestamp))
          VestingCompleted ;;;
  unvested <- calculate_unvested_amount vesting_schedule unix_timestamp ;;
  Ok (unvested, set_revoked vesting_schedule unvested).

End Revoke.

(** * JavaScript numbers that hold integers *)

Module JsNumber.

Definition bit_length (a : Z) : Z := if a =? 0 then 0 else Z.log2 a + 1.

(** Rounding of an integer to the nearest double, ties to the even
    significand (53 bits of precision; the exponent range is not
    reached by any value below). *)
Definition round_double (z : Z) : Z :=
  let a := Z.abs z in
  let e := bit_length a in
  if e <=? 53 then z
  else
    let ulp := 2 ^ (e - 53) in
    let q := a / ulp in
    let r := a mod ulp in
    let q' := if 2 * r <? ulp then q
              else if ulp <? 2 * r then q + 1
              else if Z.even q then q else q + 1 in
    Z.sgn z * (q' * ulp).

Definition add (x y : Z) : Z := round_double (x + y).
Definition sub (x y : Z) : Z := round_double (x - y).

End JsNumber.

(** * bn.js *)

(** What an expression gives in place of a usable value: a thrown
    [Error] with its message, or the [BN] object without digits that the
    string constructor leaves behind when it has nothing to read. *)
Inductive Exception : Type :=
| JsError (message : string)
| UninitialisedBN.

Module BN.

(** [toNumber] succeeds on at most 53 bits. *)
Definition toNumber (x : Z) : result Exception Z :=
  if Z.abs x <? 2 ^ 53 then Ok x
  else Err (JsError "Number can only safely store up to 53 bits").

(** [new BN(n)] for a number [n]: the constructor asserts [|n| < 2^53]. *)
Definition ofNumber (n : Z) : result Exception Z :=
  if Z.abs n <? 2 ^ 53 then Ok n else Err (JsError "Assertion failed").

Definition sub (x y : Z) : Z := x - y.
Definition mul (x y : Z) : Z := x * y.
Definition gt (x y : Z) : bool := x >? y.

(** [div] and [mod] truncate toward zero and assert a non-zero divisor. *)
Definition div (x y : Z) : result Exception Z :=
  if y =? 0 then Err (JsError "Assertion failed") else Ok (Z.quot x y).

Definition mod_ (x y : Z) : result Exception Z :=
  if y =? 0 then Err (JsError "Assertion failed") else Ok (Z.rem x y).

Definition pow (x n : Z) : Z := x ^ n.

End BN.

(** * frontend/src/utils/program.ts *)

Module Program.

Record VestingSchedule : Type := mkVestingSchedule {
  admin : Pubkey;
  beneficiary : Pubkey;
  mint : Pubkey;
  totalAmount : Z;
  claimedAmount : Z;
  startTime : Z;
  cliffDuration : Z;
  vestingDuration : Z;
  isRevoked : bool;
  revokedAmount : Z;
  bump : Z;
  vaultBump : Z
}.

(** The account as the client decodes it
    ([account as unknown as VestingSchedule]). *)
Definition ofAccount (a : State.VestingSchedule) : VestingSchedule :=
  {| admin := State.admin a;
     beneficiary := State.beneficiary a;
     mint := State.mint a;
     totalAmount := State.total_amount a;
     claimedAmount := State.claimed_amount a;
     startTime := State.start_time a;
     cliffDuration := State.cliff_duration a;
     vestingDuration := State.vesting_duration a;
     isRevoked := State.is_revoked a;
     revokedAmount := State.revoked_amount a;
     bump := State.bump a;
     vaultBump := State.vault_bump a |}.

(** [currentTime] is a JavaScript number holding an integer. *)
Definition calculateVestedAmount (schedule : VestingSchedule) (currentTime : Z)
  : result Exception Z :=
  if isRevoked schedule then
    Ok (BN.sub (totalAmount schedule) (revokedAmount schedule))
  else
    startTime <- BN.toNumber (startTime schedule) ;;
    cliffDuration <- BN.toNumber (cliffDuration schedule) ;;
    vestingDuration <- BN.toNumber (vestingDuration schedule) ;;
    let cliffEnd := JsNumber.add startTime cliffDuration in
    let vestingEnd := JsNumber.add startTime vestingDuration in
    if currentTime <? cliffEnd then BN.ofNumber 0
    else if currentTime >=? vestingEnd then Ok (totalAmount schedule)
    else
      let elapsed := JsNumber.sub currentTime startTime in
      e <- BN.ofNumber elapsed ;;
      d <- BN.ofNumber vestingDuration ;;
      BN.div (BN.mul (totalAmount schedule) e) d.

Definition calculateClaimableAmount (schedule : VestingSchedule)
  (currentTime : Z) : result Exception Z :=
  vested <- calculateVestedAmount schedule currentTime ;;
  let claimable := BN.sub vested (claimedAmount schedule) in
  zero <- BN.ofNumber 0 ;;
  if BN.gt claimable zero then Ok claimable else BN.ofNumber 0.

(** The data-model constraints a schedule carries from its creation. *)
Record valid (s : VestingSchedule) : Prop := {
  valid_total : 0 <= totalAmount s;
  valid_cliff : 0 <= cliffDuration s;
  valid_duration : 0 < vestingDuration s;
  valid_revoked : 0 <= revokedAmount s <= totalAmount s
}.

(** The three time fields convert with [toNumber]. *)
Record convertible (s : VestingSchedule) : Prop := {
  conv_start : Z.abs (startTime s) < 2 ^ 53;
  conv_cliff : Z.abs (cliffDuration s) < 2 ^ 53;
  conv_duration : Z.abs (vestingDuration s) < 2 ^ 53
}.

(** The two sums are doubles, so that the additions are exact. *)
Record exact_ends (s : VestingSchedule) : Prop := {
  exact_cliff_end : Z.abs (startTime s + cliffDuration s) <= 2 ^ 53;
  exact_vesting_end : Z.abs (startTime s + vestingDuration s) <= 2 ^ 53
}.

(** Scenario A of the specification, started at [T]. *)
Definition scenarioA (T : Z) : VestingSchedule :=
  {| admin := "admin"%string; beneficiary := "beneficiary"%string;
     mint := "mint"%string;
     totalAmount := 1000; claimedAmount := 0;
     startTime := T; cliffDuration := 100; vestingDuration := 1000;
     isRevoked := false; revokedAmount := 0;
     bump := 255; vaultBump := 255 |}.

End Program.

(** * JavaScript strings and the decimal text of a [BN] *)

Module JsString.

Definition t : Type := list ascii.

Definition zero_char : ascii := "0"%char.
Definition dot_char : ascii := "."%char.
Definition minus_char : ascii := "-"%char.

(** [s.padStart(n, c)] and [s.padEnd(n, c)] for a one-character filler. *)
Definition padStart (s : t) (n : nat) (c : ascii) : t :=
  repeat c (n - List.length s) ++ s.

Definition padEnd (s : t) (n : nat) (c : ascii) : t :=
  s ++ repeat c (n - List.length s).

(** [s.slice(0, n)]. *)
Definition slice0 (s : t) (n : nat) : t := firstn n s.

(** [s.replace(/0+$/, '')]: the trailing run of zeros is removed. *)
Fixpoint trimTrailingZeros (s : t) : t :=
  match s with
  | [] => []
  | c :: r =>
      match trimTrailingZeros r with
      | [] => if Ascii.eqb c zero_char then [] else [c]
      | r' => c :: r'
      end
  end.

(** [s.split(sep)] for a one-character separator. *)
Fixpoint split (sep : ascii) (s : t) : list t :=
  match s with
  | [] => [[]]
  | c :: r =>
      if Ascii.eqb c sep then [] :: split sep r
      else match split sep r with
           | p :: ps => (c :: p) :: ps
           | [] => [[c]]
           end
  end.

(** Whitespace as [/\s/] sees it among the code units below 256: tab to
    carriage return, the space and the no-break space. *)
Definition is_space (c : ascii) : bool :=
  let n := nat_of_ascii c in
  ((9 <=? n) && (n <=? 13))%nat || (n =? 32)%nat || (n =? 160)%nat.

End JsString.

Module BNString.

Import JsString.

Definition digit_char (k : Z) : ascii := ascii_of_nat (48 + Z.to_nat k).

Definition digit_of_char (c : ascii) : option Z :=
  let n := nat_of_ascii c in
  if ((48 <=? n) && (n <=? 57))%nat then Some (Z.of_nat (n - 48)) else None.

(** The ten digit characters. *)
Definition is_digit (c : ascii) : Prop :=
  exists k : Z, 0 <= k < 10 /\ c = digit_char k.

(** Decimal digits of a non-negative integer, most significant first; the
    loop divides by ten until the quotient vanishes. *)
Fixpoint digits_loop (fuel : nat) (n : Z) (acc : t) : t :=
  match fuel with
  | O => acc
  | S fuel' =>
      let acc' := digit_char (n mod 10) :: acc in
      if n <? 10 then acc' else digits_loop fuel' (n / 10) acc'
  end.

Definition digits (n : Z) : t :=
  digits_loop (S (Z.to_nat (Z.log2 n))) n [].

(** [x.toString()] in base ten. *)
Definition toString (x : Z) : t :=
  if x <? 0 then minus_char :: digits (Z.abs x) else digits x.

(** The digit loop of the string constructor: every character must be a
    decimal digit. *)
Fixpoint parseBase (s : t) (r : Z) : result Exception Z :=
  match s with
  | [] => Ok r
  | c :: s' =>
      match digit_of_char c with
      | Some b => parseBase s' (r * 10 + b)
      | None => Err (JsError "Invalid character")
      end
  end.

(** [new BN(s)] for a string [s], base ten.  The empty string is falsy
    and the constructor reads the number [0] in its place.  Otherwise
    whitespace is dropped and a leading minus sign is read; the digit loop
    runs only when something is left after the sign.  When nothing is left
    (a string of whitespace, or a sign alone) the constructor returns
    without storing any digits: [UninitialisedBN]. *)
Definition ofString (s : t) : result Exception Z :=
  match s with
  | [] => Ok 0
  | _ :: _ =>
      let number := filter (fun c => negb (is_space c)) s in
      match number with
      | [] => Err UninitialisedBN
      | c :: rest =>
          if Ascii.eqb c minus_char then
            match rest with
            | [] => Err UninitialisedBN
            | _ :: _ => v <- parseBase rest 0 ;; Ok (- v)
            end
          else parseBase number 0
      end
  end.

End BNString.

Module Format.

Import JsString BNString.

(** [formatTokenAmount] of program.ts. *)
Definition formatTokenAmount (amount : Z) (decimals : nat)
  : result Exception JsString.t :=
  ten <- BN.ofNumber 10 ;;
  d <- BN.ofNumber (Z.of_nat decimals) ;;
  let divisor := BN.pow ten d in
  integerPart <- BN.div amount divisor ;;
  fractionalPart <- BN.mod_ amount divisor ;;
  let fractionalStr := padStart (toString fractionalPart) decimals zero_char in
  let trimmedFractional := trimTrailingZeros fractionalStr in
  match trimmedFractional with
  | _ :: _ => Ok (toString integerPart ++ dot_char :: trimmedFractional)
  | [] => Ok (toString integerPart)
  end.

(** [parseTokenAmount] of program.ts. *)
Definition parseTokenAmount (amount : JsString.t) (decimals : nat)
  : result Exception Z :=
  let parts := split dot_char amount in
  let integerPart := nth 0 parts [] in
  let fractionalPart := nth 1 parts [] in
  let paddedFractional :=
    slice0 (padEnd fractionalPart decimals zero_char) decimals in
  let fullAmount := integerPart ++ paddedFractional in
  ofString fullAmount.

End Format.

Definition str (s : string) : JsString.t := list_ascii_of_string s.

(** * Concrete inputs used in the statements below *)

Module Samples.

Import State.

Definition ctx0 : CreateVesting.Context :=
  {| CreateVesting.ctx_admin := "admin"%string;
     CreateVesting.ctx_beneficiary := "beneficiary"%string;
     CreateVesting.ctx_mint := "mint"%string;
     CreateVesting.ctx_bump := 255;
     CreateVesting.ctx_vault_bump := 254 |}.

(** A schedule that starts ten seconds before the largest [i64]: one day
    of vesting, a cliff of five seconds. *)
Definition late_start : VestingSchedule :=
  CreateVesting.init_schedule ctx0 1000 (Int.i64_max - 10) 5 86400.

(** Scenario A of the specification on chain, started at [T]. *)
Definition accountA (T : Z) : VestingSchedule :=
  {| admin := "admin"%string; beneficiary := "beneficiary"%string;
     mint := "mint"%string;
     total_amount := 1000; claimed_amount := 0;
     start_time := T; cliff_duration := 100; vesting_duration := 1000;
     is_revoked := false; revoked_amount := 0;
     bump := 255; vault_bump := 254 |}.

(** A schedule whose cliff ends after the largest [i64]: it starts two
    seconds before it, with a cliff of five seconds. *)
Definition cliff_past_i64 : VestingSchedule :=
  CreateVesting.init_schedule ctx0 1000 (Int.i64_max - 2) 5 86400.

(** A schedule that starts one second before [2^53], with a cliff of two
    seconds: the end of the cliff, [2^53 + 1], is not a double. *)
Definition cliff_past_2_53 : VestingSchedule :=
  CreateVesting.init_schedule ctx0 86400 (2 ^ 53 - 1) 2 86400.

(** A schedule that starts at [2^53]: [toNumber] refuses its start time. *)
Definition start_at_2_53 : VestingSchedule :=
  CreateVesting.init_schedule ctx0 86400 (2 ^ 53) 2 86400.

End Samples.

(** * The rest of program.ts and the vesting card *)

Module JsSlice.

(** [s.slice(start, end)]: a negative index counts from the end of the
    string, every index is clamped to the string, and an absent [end] is
    the length.  ([-0] is [0], so [s.slice(-0)] is the whole string.) *)
Definition clamp (len i : Z) : Z :=
  if i <? 0 then Z.max (len + i) 0 else Z.min i len.

Definition slice (s : JsString.t) (start : Z) (end_ : option Z) : JsString.t :=
  let len := Z.of_nat (List.length s) in
  let from := clamp len start in
  let to := match end_ with
            | Some e => clamp len e
            | None => len
            end in
  firstn (Z.to_nat (to - from)) (skipn (Z.to_nat from) s).

End JsSlice.

Module Address.

Definition ellipsis : JsString.t := list_ascii_of_string "...".

(** [shortenAddress] of program.ts. *)
Definition shortenAddress (address : JsString.t) (chars : Z) : JsString.t :=
  JsSlice.slice address 0 (Some chars) ++ ellipsis
  ++ JsSlice.slice address (- chars) None.

End Address.

Module JsDate.

(** A [Date] by its time value in milliseconds; [None] is the invalid date,
    whose [getTime()] is [NaN]. *)
Definition t : Type := option Z.

Definition maxTime : Z := 8640000000000000.

(** [new Date(v)] for a number [v] holding an integer. *)
Definition make (v : Z) : t :=
  if Z.abs v <=? maxTime then Some v else None.

(** [x >= d.getTime()]: a comparison with [NaN] is false. *)
Definition reached (x : Z) (d : t) : bool :=
  match d with
  | Some v => x >=? v
  | None => false
  end.

End JsDate.

Module Info.

Import Program.

Record VestingInfo : Type := mkVestingInfo {
  publicKey : Pubkey;
  account : VestingSchedule;
  vestedAmount : Z;
  claimableAmount : Z;
  cliffEnd : JsDate.t;
  vestingEnd : JsDate.t;
  percentVested : Z
}.

(** The product of two JavaScript numbers that hold integers. *)
Definition times (x y : Z) : Z := JsNumber.round_double (x * y).

(** The callback that [fetchVestingSchedulesForBeneficiary] and
    [fetchVestingSchedulesForAdmin] map over the fetched accounts. *)
Definition toVestingInfo (publicKey : Pubkey) (schedule : VestingSchedule)
  (currentTime : Z) : result Exception VestingInfo :=
  vestedAmount <- calculateVestedAmount schedule currentTime ;;
  claimableAmount <- calculateClaimableAmount schedule currentTime ;;
  s <- BN.toNumber (startTime schedule) ;;
  let startTime := times s 1000 in
  c <- BN.toNumber (cliffDuration schedule) ;;
  let cliffEnd := JsDate.make (JsNumber.add startTime (times c 1000)) in
  d <- BN.toNumber (vestingDuration schedule) ;;
  let vestingEnd := JsDate.make (JsNumber.add startTime (times d 1000)) in
  zero <- BN.ofNumber 0 ;;
  percentVested <-
    (if BN.gt (totalAmount schedule) zero then
       hundred <- BN.ofNumber 100 ;;
       q <- BN.div (BN.mul vestedAmount hundred) (totalAmount schedule) ;;
       BN.toNumber q
     else Ok 0) ;;
  Ok {| publicKey := publicKey;
        account := schedule;
        vestedAmount := vestedAmount;
        claimableAmount := claimableAmount;
        cliffEnd := cliffEnd;
        vestingEnd := vestingEnd;
        percentVested := percentVested |}.

(** [accounts.map(callback)]: the first account on which the callback
    throws aborts the whole listing. *)
Fixpoint toVestingInfos (accounts : list (Pubkey * VestingSchedule))
  (currentTime : Z) : result Exception (list VestingInfo) :=
  match accounts with
  | [] => Ok []
  | (publicKey, schedule) :: rest =>
      info <- toVestingInfo publicKey schedule currentTime ;;
      infos <- toVestingInfos rest currentTime ;;
      Ok (info :: infos)
  end.

End Info.

(** * components/VestingCard.tsx *)

Module Card.

Import Program Info.

(** The three time flags of a render; [currentTime] is [Date.now()]. *)
Record Flags : Type := mkFlags {
  isStarted : bool;
  isCliffReached : bool;
  isFullyVested : bool
}.

Definition flags (schedule : VestingInfo) (currentTime : Z)
  : result Exception Flags :=
  s <- BN.toNumber (startTime (account schedule)) ;;
  let startTime := times s 1000 in
  Ok {| isStarted := currentTime >=? startTime;
        isCliffReached := JsDate.reached currentTime (cliffEnd schedule);
        isFullyVested := JsDate.reached currentTime (vestingEnd schedule) |}.

Definition getStatusColor (schedule : VestingInfo) (f : Flags) : string :=
  if isRevoked (account schedule) then "bg-red-100 text-red-800"
  else if isFullyVested f then "bg-green-100 text-green-800"
  else if isCliffReached f then "bg-blue-100 text-blue-800"
  else "bg-yellow-100 text-yellow-800".

Definition getStatusText (schedule : VestingInfo) (f : Flags) : string :=
  if isRevoked (account schedule) then "Revoked"
  else if isFullyVested f then "Fully Vested"
  else if isCliffReached f then "Vesting"
  else if isStarted f then "Cliff Period"
  else "Not Started".

(** The claimable box is rendered for a beneficiary past the cliff of a
    schedule that is not revoked. *)
Definition showsClaimable (schedule : VestingInfo) (isAdmin : bool) (f : Flags)
  : bool :=
  negb isAdmin && isCliffReached f && negb (isRevoked (account schedule)).

(** The revoke button of the admin view. *)
Definition revokeDisabled (schedule : VestingInfo) (loading : bool) (f : Flags)
  : bool :=
  loading || isRevoked (account schedule) || isFullyVested f.

Definition revokeLabel (schedule : VestingInfo) (loading : bool) (f : Flags)
  : string :=
  if isRevoked (account schedule) then "Already Revoked"
  else if isFullyVested f then "Cannot Revoke"
  else if loading then "Processing..."
  else "Revoke Vesting".

(** The claim button of the beneficiary view; [claimableAmount.isZero()]
    is the test against zero. *)
Definition claimDisabled (schedule : VestingInfo) (loading : bool) (f : Flags)
  : bool :=
  loading || negb (isCliffReached f) || isRevoked (account schedule)
  || (claimableAmount schedule =? 0).

Definition claimLabel (schedule : VestingInfo) (loading : bool) (f : Flags)
  : string :=
  if negb (isCliffReached f) then "Cliff Not Reached"
  else if isRevoked (account schedule) then "Vesting Revoked"
  else if claimableAmount schedule =? 0 then "Nothing to Claim"
  else if loading then "Claiming..."
  else "Claim Tokens".

(** The width of the progress bar, in percent:
    [Math.min(percentVested, 100)]. *)
Definition barWidth (schedule : VestingInfo) : Z :=
  Z.min (percentVested schedule) 100.

End Card.

(** * Facts about the number model *)

Lemma bind_ok {E A B : Type} (a : A) (k : A -> result E B) :
  bind (Ok a) k = k a.
Proof. reflexivity. Qed.

Lemma bit_length_small (a : Z) :
  0 <= a < 2 ^ 53 -> JsNumber.bit_length a <= 53.
Proof.
  intros [H0 H1]. unfold JsNumber.bit_length.
  destruct (Z.eqb_spec a 0) as [->|Hne]; [lia|].
  assert (Z.log2 a < 53) by (apply Z.log2_lt_pow2; lia).
  lia.
Qed.

Lemma bit_length_54 (a : Z) :
  2 ^ 53 <= a < 2 ^ 54 -> JsNumber.bit_length a = 54.
Proof.
  intros [H0 H1]. unfold JsNumber.bit_length.
  destruct (Z.eqb_spec a 0) as [->|Hne]; [lia|].
  rewrite (Z.log2_unique a 53); lia.
Qed.

(** Integers up to [2^53] in magnitude are doubles. *)
Lemma round_double_exact (z : Z) :
  Z.abs z <= 2 ^ 53 -> JsNumber.round_double z = z.
Proof.
  intros Hz. unfold JsNumber.round_double.
  destruct (Z_lt_le_dec (Z.abs z) (2 ^ 53)) as [Hlt|Hge].
  - pose proof (bit_length_small (Z.abs z)) as Hb.
    destruct (Z.leb_spec (JsNumber.bit_length (Z.abs z)) 53); lia.
  - assert (Ha : Z.abs z = 2 ^ 53) by lia.
    rewrite Ha. change (JsNumber.bit_length (2 ^ 53)) with 54.
    change (54 <=? 53) with false. change (2 ^ (54 - 53)) with 2.
    change (2 ^ 53 mod 2) with 0. change (2 * 0 <? 2) with true.
    cbv beta iota. change (2 ^ 53 / 2 * 2) with (2 ^ 53).
    destruct (Z.abs_spec z) as [[Hs Hab]|[Hs Hab]].
    + rewrite Z.sgn_pos by lia. lia.
    + rewrite Z.sgn_neg by lia. lia.
Qed.

(** Below [2^54] the doubles are at most the even integers, and rounding
    moves an integer by at most one. *)
Lemma round_double_near (z : Z) :
  Z.abs z < 2 ^ 54 -> z - 1 <= JsNumber.round_double z <= z + 1.
Proof.
  intros Hz.
  destruct (Z_le_gt_dec (Z.abs z) (2 ^ 53)) as [Hle|Hgt].
  - rewrite round_double_exact by assumption. lia.
  - unfold JsNumber.round_double.
    rewrite (bit_length_54 (Z.abs z)) by lia.
    change (54 <=? 53) with false. change (2 ^ (54 - 53)) with 2. cbv zeta.
    pose proof (Z.div_mod (Z.abs z) 2 ltac:(lia)) as Hdm.
    pose proof (Z.mod_pos_bound (Z.abs z) 2 ltac:(lia)) as Hm.
    set (q := Z.abs z / 2) in *. set (r := Z.abs z mod 2) in *.
    assert (Hq' : q <= (if 2 * r <? 2 then q
                        else if 2 <? 2 * r then q + 1
                        else if Z.even q then q else q + 1) <= q + r).
    { destruct (Z.ltb_spec (2 * r) 2); [lia|].
      destruct (Z.ltb_spec 2 (2 * r)); [lia|].
      destruct (Z.even q); lia. }
    set (q' := if 2 * r <? 2 then q
               else if 2 <? 2 * r then q + 1
               else if Z.even q then q else q + 1) in *.
    destruct (Z.abs_spec z) as [[Hs Hab]|[Hs Hab]].
    + rewrite Z.sgn_pos by lia. lia.
    + rewrite Z.sgn_neg by lia. lia.
Qed.

Lemma toNumber_ok (x : Z) : Z.abs x < 2 ^ 53 -> BN.toNumber x = Ok x.
Proof.
  intros H. unfold BN.toNumber.
  destruct (Z.ltb_spec (Z.abs x) (2 ^ 53)); [reflexivity|lia].
Qed.

Lemma ofNumber_ok (x : Z) : Z.abs x < 2 ^ 53 -> BN.ofNumber x = Ok x.
Proof.
  intros H. unfold BN.ofNumber.
  destruct (Z.ltb_spec (Z.abs x) (2 ^ 53)); [reflexivity|lia].
Qed.

Lemma div_ok (x y : Z) : y <> 0 -> BN.div x y = Ok (Z.quot x y).
Proof.
  intros H. unfold BN.div.
  destruct (Z.eqb_spec y 0); [contradiction|reflexivity].
Qed.

(** * The on-chain vested amount *)

Module StateFacts.

Import Int State.

Lemma in_i64b_spec (x : Z) : reflect (in_i64 x) (in_i64b x).
Proof.
  apply iff_reflect. unfold in_i64b, in_i64.
  rewrite andb_true_iff, !Z.leb_le. tauto.
Qed.

Lemma in_u64b_spec (x : Z) : reflect (in_u64 x) (in_u64b x).
Proof.
  apply iff_reflect. unfold in_u64b, in_u64.
  rewrite andb_true_iff, !Z.leb_le. tauto.
Qed.

Lemma i64_checked_add_some (x y : Z) :
  in_i64 (x + y) -> i64_checked_add x y = Some (x + y).
Proof.
  intros H. unfold i64_checked_add.
  destruct (in_i64b_spec (x + y)); [reflexivity|contradiction].
Qed.

Lemma i64_checked_add_none (x y : Z) :
  ~ in_i64 (x + y) -> i64_checked_add x y = None.
Proof.
  intros H. unfold i64_checked_add.
  destruct (in_i64b_spec (x + y)); [contradiction|reflexivity].
Qed.

Lemma as_u64_id (x : Z) : 0 <= x < 2 ^ 64 -> as_u64 x = x.
Proof. intros H. unfold as_u64. apply Z.mod_small. exact H. Qed.

Lemma as_u128_id (x : Z) : 0 <= x < 2 ^ 128 -> as_u128 x = x.
Proof. intros H. unfold as_u128. apply Z.mod_small. exact H. Qed.

Lemma as_u64_negative (x : Z) :
  - 2 ^ 63 <= x < 0 -> as_u64 x = x + 2 ^ 64.
Proof.
  intros H. unfold as_u64.
  symmetry. apply (Z.mod_unique x (2 ^ 64) (-1)); lia.
Qed.

Lemma wrap_i64_id (x : Z) : in_i64 x -> wrap_i64 x = x.
Proof.
  unfold in_i64, i64_min, i64_max, wrap_i64. intros H.
  rewrite Z.mod_small by lia. lia.
Qed.

Example accountA_before_cliff :
  calculate_vested_amount (Samples.accountA 1700000000) 1700000050 = Ok 0.
Proof. vm_compute. reflexivity. Qed.

Example accountA_at_cliff :
  calculate_vested_amount (Samples.accountA 1700000000) 1700000100 = Ok 100.
Proof. vm_compute. reflexivity. Qed.

Example accountA_halfway :
  calculate_vested_amount (Samples.accountA 1700000000) 1700000500 = Ok 500.
Proof. vm_compute. reflexivity. Qed.

Example accountA_at_end :
  calculate_vested_amount (Samples.accountA 1700000000) 1700001000 = Ok 1000.
Proof. vm_compute. reflexivity. Qed.

Example accountA_truncates :
  calculate_vested_amount (Samples.accountA 0) 999 = Ok 999
  /\ calculate_vested_amount
       (CreateVesting.init_schedule Samples.ctx0 1000 0 0 365) 100 = Ok 273.
Proof. split; vm_compute; reflexivity. Qed.

(** The method on a schedule that is not revoked, sum by sum. *)
Lemma vested_not_revoked (s : VestingSchedule) (now : Z) :
  is_revoked s = false ->
  (~ in_i64 (start_time s + cliff_duration s) ->
   calculate_vested_amount s now = Err CalculationOverflow)
  /\ (in_i64 (start_time s + cliff_duration s) ->
      now < start_time s + cliff_duration s ->
      calculate_vested_amount s now = Ok 0)
  /\ (in_i64 (start_time s + cliff_duration s) ->
      start_time s + cliff_duration s <= now ->
      ~ in_i64 (start_time s + vesting_duration s) ->
      calculate_vested_amount s now = Err CalculationOverflow)
  /\ (in_i64 (start_time s + cliff_duration s) ->
      start_time s + cliff_duration s <= now ->
      in_i64 (start_time s + vesting_duration s) ->
      start_time s + vesting_duration s <= now ->
      calculate_vested_amount s now = Ok (total_amount s)).
Proof.
  intros Hr. unfold calculate_vested_amount. rewrite Hr.
  repeat split.
  - intros H. rewrite i64_checked_add_none by assumption. reflexivity.
  - intros H Hlt. rewrite i64_checked_add_some by assumption. simpl.
    destruct (Z.ltb_spec now (start_time s + cliff_duration s));
      [reflexivity|lia].
  - intros H Hle Hv. rewrite i64_checked_add_some by assumption. simpl.
    destruct (Z.ltb_spec now (start_time s + cliff_duration s)); [lia|].
    rewrite i64_checked_add_none by assumption. reflexivity.
  - intros H Hle Hv Hge. rewrite i64_checked_add_some by assumption. simpl.
    destruct (Z.ltb_spec now (start_time s + cliff_duration s)); [lia|].
    rewrite i64_checked_add_some by assumption. simpl.
    destruct (Z.geb_spec now (start_time s + vesting_duration s));
      [reflexivity|lia].
Qed.

(** The linear part on a well-typed schedule with a non-negative cliff. *)
Lemma vested_linear (s : VestingSchedule) (now : Z) :
  is_revoked s = false -> well_typed s ->
  0 <= cliff_duration s -> 0 < vesting_duration s ->
  in_i64 (start_time s + cliff_duration s) ->
  in_i64 (start_time s + vesting_duration s) ->
  start_time s + cliff_duration s <= now < start_time s + vesting_duration s ->
  calculate_vested_amount s now =
    Ok (total_amount s * (now - start_time s) / vesting_duration s).
Proof.
  intros Hr [Ht Hc Hs Hcl Hd Hrv] Hc0 Hd0 Hce Hve [Hlo Hhi].
  unfold calculate_vested_amount. rewrite Hr.
  rewrite !i64_checked_add_some by assumption. simpl.
  destruct (Z.ltb_spec now (start_time s + cliff_duration s)); [lia|].
  destruct (Z.geb_spec now (start_time s + vesting_duration s)); [lia|].
  unfold in_u64, in_i64, u64_max, i64_min, i64_max in *.
  rewrite wrap_i64_id by (autounfold with ranges; lia).
  rewrite !as_u128_id by lia.
  unfold u128_checked_mul, u128_checked_div, in_u128b, u128_max.
  assert (Hp : 0 <= total_amount s * (now - start_time s) <= 2 ^ 128 - 1)
    by nia.
  destruct (Z.leb_spec 0 (total_amount s * (now - start_time s))); [|lia].
  destruct (Z.leb_spec (total_amount s * (now - start_time s)) (2 ^ 128 - 1));
    [|lia].
  simpl.
  destruct (Z.eqb_spec (vesting_duration s) 0); [lia|]. simpl.
  assert (Hq : 0 <= total_amount s * (now - start_time s) / vesting_duration s
               <= total_amount s).
  { split.
    - apply Z.div_pos; lia.
    - apply Z.div_le_upper_bound; nia. }
  rewrite as_u64_id by lia. reflexivity.
Qed.

(** Whatever the method returns on a well-typed schedule with a
    non-negative cliff and a positive duration lies between zero and the
    total amount. *)
Lemma vested_bounds (s : VestingSchedule) (now v : Z) :
  well_typed s -> 0 <= cliff_duration s -> 0 < vesting_duration s ->
  calculate_vested_amount s now = Ok v ->
  0 <= v <= total_amount s.
Proof.
  intros Hwt Hc0 Hd0 Hv.
  destruct (is_revoked s) eqn:Hr.
  - unfold calculate_vested_amount in Hv. rewrite Hr in Hv.
    destruct Hwt as [Ht _ _ _ _ Hrv]. unfold in_u64 in *.
    unfold u64_saturating_sub in Hv.
    destruct (Z.ltb_spec (total_amount s) (revoked_amount s));
      inversion Hv; subst; lia.
  - destruct (vested_not_revoked s now Hr) as (H1 & H2 & H3 & H4).
    destruct (in_i64b_spec (start_time s + cliff_duration s)) as [Hce|Hce];
      [|rewrite (H1 Hce) in Hv; discriminate].
    pose proof Hwt as [Ht _ _ _ _ _]. unfold in_u64 in Ht.
    destruct (Z_lt_le_dec now (start_time s + cliff_duration s)) as [Hlt|Hge].
    { rewrite (H2 Hce Hlt) in Hv. inversion Hv; subst. lia. }
    destruct (in_i64b_spec (start_time s + vesting_duration s)) as [Hve|Hve];
      [|rewrite (H3 Hce Hge Hve) in Hv; discriminate].
    destruct (Z_le_gt_dec (start_time s + vesting_duration s) now) as [Hle|Hgt].
    { rewrite (H4 Hce Hge Hve Hle) in Hv. inversion Hv; subst. lia. }
    rewrite (vested_linear s now Hr Hwt Hc0 Hd0 Hce Hve) in Hv by lia.
    inversion Hv; subst. split.
    + apply Z.div_pos; nia.
    + apply Z.div_le_upper_bound; nia.
Qed.

(** The method as a piecewise function, when neither sum overflows. *)
Lemma vested_piecewise (s : VestingSchedule) (now : Z) :
  is_revoked s = false -> well_typed s ->
  0 <= cliff_duration s -> 0 < vesting_duration s ->
  in_i64 (start_time s + cliff_duration s) ->
  in_i64 (start_time s + vesting_duration s) ->
  calculate_vested_amount s now =
    Ok (if now <? start_time s + cliff_duration s then 0
        else if now >=? start_time s + vesting_duration s then total_amount s
        else total_amount s * (now - start_time s) / vesting_duration s).
Proof.
  intros Hr Hwt Hc Hd Hce Hve.
  destruct (vested_not_revoked s now Hr) as (_ & H2 & _ & H4).
  destruct (Z.ltb_spec now (start_time s + cliff_duration s));
    [apply H2; assumption|].
  destruct (Z.geb_spec now (start_time s + vesting_duration s));
    [apply H4; assumption|].
  apply vested_linear; try assumption. lia.
Qed.

End StateFacts.

(** * The frontend's vested and claimable amounts *)

Module ProgramFacts.

Import Program.

(** The function, unfolded for a schedule that is not revoked and whose
    time fields convert: the two thresholds are the rounded sums. *)
Lemma calculateVestedAmount_unfold (s : VestingSchedule) (now : Z) :
  isRevoked s = false -> convertible s ->
  calculateVestedAmount s now =
    let cliffEnd := JsNumber.add (startTime s) (cliffDuration s) in
    let vestingEnd := JsNumber.add (startTime s) (vestingDuration s) in
    if now <? cliffEnd then Ok 0
    else if now >=? vestingEnd then Ok (totalAmount s)
    else bind (BN.ofNumber (JsNumber.sub now (startTime s)))
              (fun e => BN.div (BN.mul (totalAmount s) e) (vestingDuration s)).
Proof.
  intros Hr [Hs Hc Hd]. unfold calculateVestedAmount. rewrite Hr.
  rewrite !toNumber_ok by assumption. rewrite !bind_ok. cbv zeta.
  destruct (now <? _); [reflexivity|].
  destruct (now >=? _); [reflexivity|].
  destruct (BN.ofNumber (JsNumber.sub now (startTime s))); [|reflexivity].
  rewrite !bind_ok. rewrite ofNumber_ok by assumption. reflexivity.
Qed.

(** The thresholds stay within one of the exact sums. *)
Lemma ends_near (s : VestingSchedule) :
  convertible s ->
  startTime s + cliffDuration s - 1
    <= JsNumber.add (startTime s) (cliffDuration s)
    <= startTime s + cliffDuration s + 1
  /\ startTime s + vestingDuration s - 1
    <= JsNumber.add (startTime s) (vestingDuration s)
    <= startTime s + vestingDuration s + 1.
Proof.
  intros [Hs Hc Hd]. unfold JsNumber.add.
  split; apply round_double_near; lia.
Qed.

(** Linear part, when the elapsed time is a small integer. *)
Lemma linear_part (s : VestingSchedule) (now : Z) :
  Z.abs (now - startTime s) < 2 ^ 53 -> vestingDuration s <> 0 ->
  bind (BN.ofNumber (JsNumber.sub now (startTime s)))
       (fun e => BN.div (BN.mul (totalAmount s) e) (vestingDuration s))
  = Ok (Z.quot (totalAmount s * (now - startTime s)) (vestingDuration s)).
Proof.
  intros He Hd. unfold JsNumber.sub.
  rewrite round_double_exact by lia.
  rewrite ofNumber_ok by assumption. rewrite bind_ok.
  unfold BN.mul. apply div_ok. assumption.
Qed.

Lemma quot_le_total (total e d : Z) :
  0 <= total -> 0 < d -> e <= d -> Z.quot (total * e) d <= total.
Proof.
  intros Ht Hd He.
  rewrite <- (Z.quot_mul total d) at 2 by lia.
  apply Z.quot_le_mono; nia.
Qed.

Lemma quot_nonneg (total e d : Z) :
  0 <= total -> 0 < d -> 0 <= e -> 0 <= Z.quot (total * e) d.
Proof.
  intros Ht Hd He. apply Z.quot_pos; nia.
Qed.

Lemma quot_mono (total e1 e2 d : Z) :
  0 <= total -> 0 < d -> e1 <= e2 ->
  Z.quot (total * e1) d <= Z.quot (total * e2) d.
Proof.
  intros Ht Hd He. apply Z.quot_le_mono; nia.
Qed.

(** The value on every non-revoked valid schedule whose time fields
    convert, with the facts about the two thresholds that the bounds
    need: the elapsed time is never negative past the cliff threshold and
    never beyond the duration before the end threshold. *)
Lemma vested_cases (s : VestingSchedule) (t : Z) :
  isRevoked s = false -> valid s -> convertible s ->
  calculateVestedAmount s t =
    Ok (if t <? JsNumber.add (startTime s) (cliffDuration s) then 0
        else if t >=? JsNumber.add (startTime s) (vestingDuration s)
             then totalAmount s
             else Z.quot (totalAmount s * (t - startTime s))
                         (vestingDuration s))
  /\ startTime s <= JsNumber.add (startTime s) (cliffDuration s)
  /\ JsNumber.add (startTime s) (vestingDuration s)
       <= startTime s + vestingDuration s + 1.
Proof.
  intros Hr Hv Hc.
  pose proof (ends_near s Hc) as [Hce Hve].
  destruct Hv as [Htot Hcl Hdur Hrev]. pose proof Hc as [Hs Hcc Hd].
  assert (Hstart : startTime s <= JsNumber.add (startTime s) (cliffDuration s)).
  { destruct (Z.eq_dec (cliffDuration s) 0) as [H0|Hn0].
    - rewrite H0. unfold JsNumber.add.
      rewrite round_double_exact by lia. lia.
    - lia. }
  split; [|split; [exact Hstart|lia]].
  rewrite calculateVestedAmount_unfold by assumption. cbv zeta.
  destruct (Z.ltb_spec t (JsNumber.add (startTime s) (cliffDuration s)));
    [reflexivity|].
  destruct (Z.geb_spec t (JsNumber.add (startTime s) (vestingDuration s)));
    [reflexivity|].
  apply linear_part; lia.
Qed.

(** Two schedules that the create handler accepts, that are not revoked
    and satisfy the data-model constraints, and on which
    [calculateVestedAmount] is not the piecewise function.  On the first
    (start [2^53 - 1], cliff 2) the time [2^53] is before
    [startTime + cliffDuration], where the piecewise function is zero: the
    sum rounds to [2^53] and the function returns 1.  On the second (start
    [2^53]) the time 0 is before [startTime + cliffDuration]: [toNumber]
    throws on the start time.  The on-chain function returns zero on
    both. *)
Lemma piecewise_fails_beyond_2_53 :
  (CreateVesting.handler Samples.ctx0 86400 (2 ^ 53 - 1) 2 86400 0
     = Ok Samples.cliff_past_2_53
   /\ isRevoked (ofAccount Samples.cliff_past_2_53) = false
   /\ valid (ofAccount Samples.cliff_past_2_53)
   /\ 2 ^ 53 < startTime (ofAccount Samples.cliff_past_2_53)
               + cliffDuration (ofAccount Samples.cliff_past_2_53)
   /\ calculateVestedAmount (ofAccount Samples.cliff_past_2_53) (2 ^ 53)
        = Ok 1
   /\ calculateVestedAmount (ofAccount Samples.cliff_past_2_53) (2 ^ 53)
        <> Ok 0
   /\ State.calculate_vested_amount Samples.cliff_past_2_53 (2 ^ 53) = Ok 0)
  /\ (CreateVesting.handler Samples.ctx0 86400 (2 ^ 53) 2 86400 0
        = Ok Samples.start_at_2_53
      /\ isRevoked (ofAccount Samples.start_at_2_53) = false
      /\ valid (ofAccount Samples.start_at_2_53)
      /\ 0 < startTime (ofAccount Samples.start_at_2_53)
             + cliffDuration (ofAccount Samples.start_at_2_53)
      /\ calculateVestedAmount (ofAccount Samples.start_at_2_53) 0
           = Err (JsError "Number can only safely store up to 53 bits")
      /\ calculateVestedAmount (ofAccount Samples.start_at_2_53) 0 <> Ok 0
      /\ State.calculate_vested_amount Samples.start_at_2_53 0 = Ok 0).
Proof.
  split.
  - split; [vm_compute; reflexivity|]. split; [reflexivity|].
    split; [constructor; simpl; lia|]. split; [simpl; lia|].
    split; [vm_compute; reflexivity|].
    split; [vm_compute; discriminate|vm_compute; reflexivity].
  - split; [vm_compute; reflexivity|]. split; [reflexivity|].
    split; [constructor; simpl; lia|]. split; [simpl; lia|].
    split; [vm_compute; reflexivity|].
    split; [vm_compute; discriminate|vm_compute; reflexivity].
Qed.

(** C1, as the code has it.  For a schedule that is not revoked,
    [calculateVestedAmount] is the piecewise function of the
    specification: zero before [startTime + cliffDuration], the total
    amount from [startTime + vestingDuration] on, and in between the floor
    of [totalAmount * (now - startTime) / vestingDuration].  This holds on
    the schedules that satisfy the data-model constraints, whose three time
    fields are below [2^53] in magnitude and whose two sums
    [startTime + cliffDuration] and [startTime + vestingDuration] are at
    most [2^53] in magnitude.  Scenario A (total 1000, cliff 100, duration
    1000, start [T] with [|T| + 1000 <= 2^53]) yields 0, 100, 500 and 1000
    at [T+50], [T+100], [T+500] and [T+1000].  The on-chain
    [calculate_vested_amount] is the same piecewise function on the
    well-typed schedules with a non-negative cliff and a positive duration
    whose two sums stay within [i64]. *)
Theorem vested_amount_piecewise :
  (forall (s : VestingSchedule) (now : Z),
     isRevoked s = false -> valid s -> convertible s -> exact_ends s ->
     calculateVestedAmount s now =
       Ok (if now <? startTime s + cliffDuration s then 0
           else if now >=? startTime s + vestingDuration s then totalAmount s
           else totalAmount s * (now - startTime s) / vestingDuration s))
  /\ (forall T : Z,
        Z.abs T + 1000 <= 2 ^ 53 ->
        calculateVestedAmount (scenarioA T) (T + 50) = Ok 0
        /\ calculateVestedAmount (scenarioA T) (T + 100) = Ok 100
        /\ calculateVestedAmount (scenarioA T) (T + 500) = Ok 500
        /\ calculateVestedAmount (scenarioA T) (T + 1000) = Ok 1000)
  /\ (forall (a : State.VestingSchedule) (now : Z),
        State.is_revoked a = false -> State.well_typed a ->
        0 <= State.cliff_duration a -> 0 < State.vesting_duration a ->
        Int.in_i64 (State.start_time a + State.cliff_duration a) ->
        Int.in_i64 (State.start_time a + State.vesting_duration a) ->
        State.calculate_vested_amount a now =
          Ok (if now <? State.start_time a + State.cliff_duration a then 0
              else if now >=? State.start_time a + State.vesting_duration a
                   then State.total_amount a
                   else State.total_amount a * (now - State.start_time a)
                        / State.vesting_duration a)).
Proof.
  assert (General : forall (s : VestingSchedule) (now : Z),
     isRevoked s = false -> valid s -> convertible s -> exact_ends s ->
     calculateVestedAmount s now =
       Ok (if now <? startTime s + cliffDuration s then 0
           else if now >=? startTime s + vestingDuration s then totalAmount s
           else totalAmount s * (now - startTime s) / vestingDuration s)).
  { intros s now Hr Hv Hc [Hce Hve].
    destruct (vested_cases s now Hr Hv Hc) as [Heq _].
    rewrite Heq. unfold JsNumber.add.
    rewrite !round_double_exact by assumption.
    destruct Hv as [Htot Hcl Hdur Hrev].
    destruct (Z.ltb_spec now (startTime s + cliffDuration s)); [reflexivity|].
    destruct (Z.geb_spec now (startTime s + vestingDuration s)); [reflexivity|].
    rewrite Z.quot_div_nonneg by nia. reflexivity. }
  split; [exact General|].
  split; [|exact StateFacts.vested_piecewise].
  intros T HT.
  assert (Hv : valid (scenarioA T)) by (constructor; simpl; lia).
  assert (Hc : convertible (scenarioA T)) by (constructor; simpl; lia).
  assert (He : exact_ends (scenarioA T)) by (constructor; simpl; lia).
  repeat split; rewrite (General (scenarioA T) _ eq_refl Hv Hc He); simpl.
  - destruct (Z.ltb_spec (T + 50) (T + 100)); [reflexivity|lia].
  - destruct (Z.ltb_spec (T + 100) (T + 100)); [lia|].
    destruct (Z.geb_spec (T + 100) (T + 1000)); [lia|].
    replace (T + 100 - T) with 100 by lia. reflexivity.
  - destruct (Z.ltb_spec (T + 500) (T + 100)); [lia|].
    destruct (Z.geb_spec (T + 500) (T + 1000)); [lia|].
    replace (T + 500 - T) with 500 by lia. reflexivity.
  - destruct (Z.ltb_spec (T + 1000) (T + 100)); [lia|].
    destruct (Z.geb_spec (T + 1000) (T + 1000)); [reflexivity|lia].
Qed.

Lemma vested_amount_piecewise_witness :
  isRevoked (scenarioA 1700000000) = false
  /\ Z.abs 1700000000 + 1000 <= 2 ^ 53
  /\ calculateVestedAmount (scenarioA 1700000000) 1700000250 = Ok 250
  /\ calculateVestedAmount (scenarioA 1700000000) (1700000000 + 500) = Ok 500.
Proof.
  split; [reflexivity|]. split; [simpl; lia|]. split.
  - apply (proj1 vested_amount_piecewise (scenarioA 1700000000) 1700000250).
    + reflexivity.
    + constructor; simpl; lia.
    + constructor; simpl; lia.
    + constructor; simpl; lia.
  - apply (proj1 (proj2 vested_amount_piecewise) 1700000000). simpl; lia.
Defined.

(** C2. The claimable amount is the vested amount minus the claimed
    amount, floored at zero: [calculateClaimableAmount] returns
    [max 0 (vested - claimedAmount)] whenever the vested amount is
    computed (and fails exactly as that computation does), so it is never
    negative, whatever the claimed amount. *)
Theorem claimable_amount_max (s : VestingSchedule) (now : Z) :
  calculateClaimableAmount s now =
    bind (calculateVestedAmount s now)
         (fun vested => Ok (Z.max 0 (vested - claimedAmount s)))
  /\ match calculateClaimableAmount s now with
     | Ok claimable => 0 <= claimable
     | Err _ => True
     end.
Proof.
  unfold calculateClaimableAmount.
  destruct (calculateVestedAmount s now) as [v|e]; simpl; [|split; trivial].
  change (BN.ofNumber 0) with (@Ok Exception Z 0). simpl.
  unfold BN.gt, BN.sub.
  destruct (Z.gtb_spec (v - claimedAmount s) 0); split;
    try (f_equal; lia); lia.
Qed.

(** When a time field does not convert, the function throws. *)
Lemma not_convertible_throws (s : VestingSchedule) (t : Z) :
  isRevoked s = false -> ~ convertible s ->
  exists e, calculateVestedAmount s t = Err e.
Proof.
  intros Hr Hn. unfold calculateVestedAmount, BN.toNumber. rewrite Hr.
  destruct (Z.ltb_spec (Z.abs (startTime s)) (2 ^ 53));
    [|eexists; reflexivity].
  destruct (Z.ltb_spec (Z.abs (cliffDuration s)) (2 ^ 53));
    [|eexists; reflexivity].
  destruct (Z.ltb_spec (Z.abs (vestingDuration s)) (2 ^ 53));
    [|eexists; reflexivity].
  exfalso. apply Hn. constructor; assumption.
Qed.

Lemma convertible_dec (s : VestingSchedule) : convertible s \/ ~ convertible s.
Proof.
  destruct (Z_lt_le_dec (Z.abs (startTime s)) (2 ^ 53));
    [|right; intros [H _ _]; lia].
  destruct (Z_lt_le_dec (Z.abs (cliffDuration s)) (2 ^ 53));
    [|right; intros [_ H _]; lia].
  destruct (Z_lt_le_dec (Z.abs (vestingDuration s)) (2 ^ 53));
    [|right; intros [_ _ H]; lia].
  left. constructor; assumption.
Qed.

Lemma bounded_when_convertible (s : VestingSchedule) (t : Z) :
  valid s -> convertible s ->
  exists v, calculateVestedAmount s t = Ok v /\ v <= totalAmount s.
Proof.
  intros Hv Hc.
  destruct (isRevoked s) eqn:Hr.
  - exists (totalAmount s - revokedAmount s).
    unfold calculateVestedAmount. rewrite Hr. unfold BN.sub.
    destruct Hv as [_ _ _ Hrev]. split; [reflexivity|lia].
  - destruct (vested_cases s t Hr Hv Hc) as (Heq & Hlo & Hhi).
    destruct Hv as [Htot Hcl Hdur Hrev].
    eexists; split; [exact Heq|].
    destruct (Z.ltb_spec t (JsNumber.add (startTime s) (cliffDuration s)));
      [lia|].
    destruct (Z.geb_spec t (JsNumber.add (startTime s) (vestingDuration s)));
      [lia|].
    apply quot_le_total; lia.
Qed.

Lemma monotone_when_convertible (s : VestingSchedule) (t1 t2 : Z) :
  isRevoked s = false -> valid s -> convertible s -> t1 <= t2 ->
  exists v1 v2,
    calculateVestedAmount s t1 = Ok v1
    /\ calculateVestedAmount s t2 = Ok v2
    /\ v1 <= v2.
Proof.
  intros Hr Hv Hc Hle.
  destruct (vested_cases s t1 Hr Hv Hc) as (Heq1 & Hlo & Hhi).
  destruct (vested_cases s t2 Hr Hv Hc) as (Heq2 & _ & _).
  destruct Hv as [Htot Hcl Hdur Hrev].
  eexists; eexists; split; [exact Heq1|split; [exact Heq2|]].
  set (C := JsNumber.add (startTime s) (cliffDuration s)) in *.
  set (E := JsNumber.add (startTime s) (vestingDuration s)) in *.
  destruct (Z.ltb_spec t1 C); destruct (Z.ltb_spec t2 C); try lia;
    destruct (Z.geb_spec t2 E); try lia;
    try (apply quot_nonneg; lia);
    destruct (Z.geb_spec t1 E); try lia.
  - apply quot_le_total; lia.
  - apply quot_mono; lia.
Qed.

(** C8. On every schedule that satisfies the data-model constraints (a
    non-negative total, a non-negative cliff, a positive duration, a
    revoked amount between zero and the total) the vested amount never
    exceeds the total amount, at every time: whatever
    [calculateVestedAmount] returns is at most [totalAmount], and it does
    return a value whenever the three time fields convert to numbers. *)
Theorem vested_le_total (s : VestingSchedule) (t : Z) :
  valid s ->
  match calculateVestedAmount s t with
  | Ok v => v <= totalAmount s
  | Err _ => True
  end
  /\ (convertible s ->
      exists v, calculateVestedAmount s t = Ok v /\ v <= totalAmount s).
Proof.
  intros Hv. split; [|apply bounded_when_convertible; assumption].
  destruct (convertible_dec s) as [Hc|Hn].
  - destruct (bounded_when_convertible s t Hv Hc) as (v & -> & Hle).
    exact Hle.
  - destruct (isRevoked s) eqn:Hr.
    + unfold calculateVestedAmount. rewrite Hr. unfold BN.sub.
      destruct Hv as [_ _ _ Hrev]. lia.
    + destruct (not_convertible_throws s t Hr Hn) as [e ->]. exact I.
Qed.

Lemma vested_le_total_witness :
  valid (scenarioA 1700000000)
  /\ exists v, calculateVestedAmount (scenarioA 1700000000) 1700000777 = Ok v
               /\ v <= 1000.
Proof.
  assert (Hv : valid (scenarioA 1700000000)) by (constructor; simpl; lia).
  split; [exact Hv|].
  apply (proj2 (vested_le_total (scenarioA 1700000000) 1700000777 Hv)).
  constructor; simpl; lia.
Defined.

(** C9. On a valid schedule that is not revoked the vested amount never
    decreases as time advances: for [t1 <= t2] the value at [t1] is at
    most the value at [t2], and both values exist whenever the time
    fields convert to numbers.  On a revoked schedule the vested amount
    is the same at all times. *)
Theorem vested_monotone :
  (forall (s : VestingSchedule) (t1 t2 : Z),
     isRevoked s = false -> valid s -> t1 <= t2 ->
     match calculateVestedAmount s t1, calculateVestedAmount s t2 with
     | Ok v1, Ok v2 => v1 <= v2
     | _, _ => True
     end
     /\ (convertible s ->
         exists v1 v2,
           calculateVestedAmount s t1 = Ok v1
           /\ calculateVestedAmount s t2 = Ok v2
           /\ v1 <= v2))
  /\ (forall (s : VestingSchedule) (t1 t2 : Z),
        isRevoked s = true ->
        calculateVestedAmount s t1 = calculateVestedAmount s t2
        /\ exists v, calculateVestedAmount s t1 = Ok v).
Proof.
  split.
  - intros s t1 t2 Hr Hv Hle.
    split; [|intros Hc; apply monotone_when_convertible; assumption].
    destruct (convertible_dec s) as [Hc|Hn].
    + destruct (monotone_when_convertible s t1 t2 Hr Hv Hc Hle)
        as (v1 & v2 & -> & -> & H). exact H.
    + destruct (not_convertible_throws s t1 Hr Hn) as [e ->]. exact I.
  - intros s t1 t2 Hr. unfold calculateVestedAmount. rewrite Hr.
    split; [reflexivity|eexists; reflexivity].
Qed.

Lemma vested_monotone_witness :
  isRevoked (scenarioA 1700000000) = false
  /\ 1700000300 <= 1700000301
  /\ exists v1 v2,
       calculateVestedAmount (scenarioA 1700000000) 1700000300 = Ok v1
       /\ calculateVestedAmount (scenarioA 1700000000) 1700000301 = Ok v2
       /\ v1 <= v2.
Proof.
  split; [reflexivity|]. split; [lia|].
  apply (proj2 (proj1 vested_monotone (scenarioA 1700000000)
                  1700000300 1700000301 eq_refl
                  ltac:(constructor; simpl; lia) ltac:(lia))).
  constructor; simpl; lia.
Defined.

End ProgramFacts.

(** * The create and revoke instructions *)

Module InstructionFacts.

Import Int Constants State Samples.

Ltac cmp_true :=
  first [ apply Z.ltb_lt | apply Z.leb_le ]; lia.
Ltac cmp_false :=
  first [ apply Z.ltb_ge | apply Z.leb_gt ]; lia.

Lemma cliff_percentage_value (cliff_duration vesting_duration : Z) :
  0 <= cliff_duration -> cliff_duration * 100 <= u64_max ->
  0 < vesting_duration <= i64_max ->
  CreateVesting.cliff_percentage cliff_duration vesting_duration =
    Ok (cliff_duration * 100 / vesting_duration).
Proof.
  unfold u64_max, i64_max. intros Hc Hm Hd.
  unfold CreateVesting.cliff_percentage.
  rewrite !StateFacts.as_u64_id by lia.
  unfold u64_checked_mul.
  destruct (StateFacts.in_u64b_spec (cliff_duration * 100)) as [_|Hn];
    [|exfalso; apply Hn; unfold in_u64, u64_max; lia].
  simpl. unfold u64_checked_div.
  destruct (Z.eqb_spec vesting_duration 0); [lia|reflexivity].
Qed.

Lemma cliff_percentage_negative (cliff_duration vesting_duration : Z) :
  in_i64 cliff_duration -> cliff_duration < 0 ->
  CreateVesting.cliff_percentage cliff_duration vesting_duration =
    Err CalculationOverflow.
Proof.
  unfold in_i64, i64_min, i64_max. intros Hc Hn.
  unfold CreateVesting.cliff_percentage.
  rewrite StateFacts.as_u64_negative by lia.
  unfold u64_checked_mul.
  destruct (StateFacts.in_u64b_spec ((cliff_duration + 2 ^ 64) * 100))
    as [Hy|_]; [|reflexivity].
  unfold in_u64, u64_max in Hy. lia.
Qed.

(** The handler once the first four validations have passed. *)
Lemma handler_after_cliff_check
  (ctx : CreateVesting.Context)
  (total_amount start_time cliff_duration vesting_duration now : Z) :
  0 < total_amount ->
  MIN_VESTING_DURATION <= vesting_duration <= MAX_VESTING_DURATION ->
  cliff_duration <= vesting_duration ->
  CreateVesting.handler ctx total_amount start_time cliff_duration
                        vesting_duration now =
    bind (CreateVesting.cliff_percentage cliff_duration vesting_duration)
      (fun pct =>
         bind (require (pct <=? MAX_CLIFF_PERCENTAGE) CliffPercentageTooHigh)
           (fun _ =>
              bind (require (start_time >? now) StartTimeInPast)
                (fun _ => Ok (CreateVesting.init_schedule ctx total_amount
                                start_time cliff_duration vesting_duration)))).
Proof.
  unfold MIN_VESTING_DURATION, MAX_VESTING_DURATION. intros Ht Hd Hc.
  unfold CreateVesting.handler, CreateVesting.require_max_duration_and_cliff.
  unfold MIN_VESTING_DURATION, MAX_VESTING_DURATION.
  rewrite Z.gtb_ltb, Z.geb_leb.
  replace (0 <? total_amount) with true by (symmetry; cmp_true).
  replace (86400 <=? vesting_duration) with true by (symmetry; cmp_true).
  replace (vesting_duration <=? 315360000) with true by (symmetry; cmp_true).
  replace (cliff_duration <=? vesting_duration) with true
    by (symmetry; cmp_true).
  reflexivity.
Qed.

(** What the handler guarantees about the cliff of a schedule it
    creates: the whole-number percentage is at most the maximum, that is,
    the cliff stays below [MAX_CLIFF_PERCENTAGE + 1] percent. *)
Lemma created_cliff_bound
  (ctx : CreateVesting.Context)
  (total_amount start_time cliff_duration vesting_duration now : Z)
  (s : VestingSchedule) :
  in_i64 cliff_duration ->
  CreateVesting.handler ctx total_amount start_time cliff_duration
                        vesting_duration now = Ok s ->
  0 <= cliff_duration
  /\ cliff_duration * 100 < vesting_duration * (MAX_CLIFF_PERCENTAGE + 1).
Proof.
  intros Hi H.
  unfold MAX_CLIFF_PERCENTAGE.
  destruct (Z_le_gt_dec total_amount 0) as [Ht|Ht].
  { unfold CreateVesting.handler in H. rewrite Z.gtb_ltb in H.
    replace (0 <? total_amount) with false in H by (symmetry; cmp_false).
    discriminate. }
  destruct (Z_lt_le_dec vesting_duration MIN_VESTING_DURATION) as [Hmin|Hmin].
  { unfold CreateVesting.handler in H. rewrite Z.gtb_ltb, Z.geb_leb in H.
    replace (0 <? total_amount) with true in H by (symmetry; cmp_true).
    replace (MIN_VESTING_DURATION <=? vesting_duration) with false in H
      by (symmetry; cmp_false).
    discriminate. }
  destruct (Z_lt_le_dec MAX_VESTING_DURATION vesting_duration) as [Hmax|Hmax].
  { unfold CreateVesting.handler, CreateVesting.require_max_duration_and_cliff
      in H.
    rewrite Z.gtb_ltb, Z.geb_leb in H.
    replace (0 <? total_amount) with true in H by (symmetry; cmp_true).
    replace (MIN_VESTING_DURATION <=? vesting_duration) with true in H
      by (symmetry; cmp_true).
    replace (vesting_duration <=? MAX_VESTING_DURATION) with false in H
      by (symmetry; cmp_false).
    discriminate. }
  destruct (Z_lt_le_dec vesting_duration cliff_duration) as [Hcl|Hcl].
  { unfold CreateVesting.handler, CreateVesting.require_max_duration_and_cliff
      in H.
    rewrite Z.gtb_ltb, Z.geb_leb in H.
    replace (0 <? total_amount) with true in H by (symmetry; cmp_true).
    replace (MIN_VESTING_DURATION <=? vesting_duration) with true in H
      by (symmetry; cmp_true).
    replace (vesting_duration <=? MAX_VESTING_DURATION) with true in H
      by (symmetry; cmp_true).
    replace (cliff_duration <=? vesting_duration) with false in H
      by (symmetry; cmp_false).
    discriminate. }
  rewrite handler_after_cliff_check in H by lia.
  unfold MIN_VESTING_DURATION, MAX_VESTING_DURATION in *.
  destruct (Z_lt_le_dec cliff_duration 0) as [Hneg|Hpos].
  { rewrite cliff_percentage_negative in H by assumption. discriminate. }
  rewrite cliff_percentage_value in H by (unfold u64_max, i64_max; lia).
  rewrite bind_ok in H. unfold MAX_CLIFF_PERCENTAGE in H.
  destruct (Z.leb_spec (cliff_duration * 100 / vesting_duration) 50)
    as [Hp|Hp]; [|discriminate].
  split; [assumption|].
  pose proof (Z.div_mod (cliff_duration * 100) vesting_duration
                ltac:(lia)) as Hdm.
  pose proof (Z.mod_pos_bound (cliff_duration * 100) vesting_duration
                ltac:(lia)) as Hm.
  nia.
Qed.

(** C3. The create handler accepts a cliff above half of the vesting
    duration: with a duration of 86400 seconds and a cliff of 43201
    seconds the whole-number percentage is 50, the schedule is created,
    and [cliff_duration * 100] exceeds
    [vesting_duration * MAX_CLIFF_PERCENTAGE]. *)
Theorem cliff_above_half_accepted :
  CreateVesting.handler ctx0 1000 1700003600 43201 86400 1700000000
    = Ok (CreateVesting.init_schedule ctx0 1000 1700003600 43201 86400)
  /\ CreateVesting.cliff_percentage 43201 86400 = Ok 50
  /\ 43201 * 100 > 86400 * MAX_CLIFF_PERCENTAGE.
Proof.
  split; [vm_compute; reflexivity|].
  split; [vm_compute; reflexivity|].
  unfold MAX_CLIFF_PERCENTAGE. lia.
Qed.

(** C6. The create handler runs its validations in a fixed order and the
    first one that fails decides the error: a zero amount gives
    [InvalidAmount]; then a duration below the minimum gives
    [DurationTooShort]; then a duration above the maximum gives
    [DurationTooLong]; then a cliff longer than the duration gives
    [InvalidCliff]; then the cliff-percentage computation gives
    [CalculationOverflow] (a negative cliff, cast to [u64]) or
    [CliffPercentageTooHigh]; then a start time not after the clock gives
    [StartTimeInPast]; otherwise the schedule is created with nothing
    claimed and not revoked.  A duration of 3600 seconds with a positive
    amount gives [DurationTooShort]. *)
Theorem create_validation_order
  (ctx : CreateVesting.Context)
  (total_amount start_time cliff_duration vesting_duration now : Z) :
  in_i64 cliff_duration ->
  let create := CreateVesting.handler ctx total_amount start_time
                  cliff_duration vesting_duration now in
  let pct := cliff_duration * 100 / vesting_duration in
  (total_amount <= 0 -> create = Err InvalidAmount)
  /\ (0 < total_amount -> vesting_duration < MIN_VESTING_DURATION ->
      create = Err DurationTooShort)
  /\ (0 < total_amount -> MIN_VESTING_DURATION <= vesting_duration ->
      MAX_VESTING_DURATION < vesting_duration ->
      create = Err DurationTooLong)
  /\ (0 < total_amount ->
      MIN_VESTING_DURATION <= vesting_duration <= MAX_VESTING_DURATION ->
      vesting_duration < cliff_duration ->
      create = Err InvalidCliff)
  /\ (0 < total_amount ->
      MIN_VESTING_DURATION <= vesting_duration <= MAX_VESTING_DURATION ->
      cliff_duration <= vesting_duration -> cliff_duration < 0 ->
      create = Err CalculationOverflow)
  /\ (0 < total_amount ->
      MIN_VESTING_DURATION <= vesting_duration <= MAX_VESTING_DURATION ->
      0 <= cliff_duration <= vesting_duration ->
      MAX_CLIFF_PERCENTAGE < pct ->
      create = Err CliffPercentageTooHigh)
  /\ (0 < total_amount ->
      MIN_VESTING_DURATION <= vesting_duration <= MAX_VESTING_DURATION ->
      0 <= cliff_duration <= vesting_duration ->
      pct <= MAX_CLIFF_PERCENTAGE -> start_time <= now ->
      create = Err StartTimeInPast)
  /\ (0 < total_amount ->
      MIN_VESTING_DURATION <= vesting_duration <= MAX_VESTING_DURATION ->
      0 <= cliff_duration <= vesting_duration ->
      pct <= MAX_CLIFF_PERCENTAGE -> now < start_time ->
      exists s, create = Ok s
                /\ claimed_amount s = 0 /\ is_revoked s = false
                /\ revoked_amount s = 0
                /\ State.total_amount s = total_amount
                /\ State.start_time s = start_time
                /\ State.cliff_duration s = cliff_duration
                /\ State.vesting_duration s = vesting_duration)
  /\ (0 < total_amount -> vesting_duration = 3600 ->
      create = Err DurationTooShort).
Proof.
  intros Hi create pct. subst create pct.
  assert (Short : 0 < total_amount -> vesting_duration < MIN_VESTING_DURATION ->
    CreateVesting.handler ctx total_amount start_time cliff_duration
      vesting_duration now = Err DurationTooShort).
  { unfold MIN_VESTING_DURATION. intros Ht Hd. unfold CreateVesting.handler.
    unfold MIN_VESTING_DURATION. rewrite Z.gtb_ltb, Z.geb_leb.
    replace (0 <? total_amount) with true by (symmetry; cmp_true).
    replace (86400 <=? vesting_duration) with false by (symmetry; cmp_false).
    reflexivity. }
  repeat match goal with |- _ /\ _ => split end.
  - intros Ht. unfold CreateVesting.handler. rewrite Z.gtb_ltb.
    replace (0 <? total_amount) with false by (symmetry; cmp_false).
    reflexivity.
  - exact Short.
  - unfold MIN_VESTING_DURATION, MAX_VESTING_DURATION. intros Ht Hmin Hmax.
    unfold CreateVesting.handler, CreateVesting.require_max_duration_and_cliff.
    unfold MIN_VESTING_DURATION, MAX_VESTING_DURATION.
    rewrite Z.gtb_ltb, Z.geb_leb.
    replace (0 <? total_amount) with true by (symmetry; cmp_true).
    replace (86400 <=? vesting_duration) with true by (symmetry; cmp_true).
    replace (vesting_duration <=? 315360000) with false
      by (symmetry; cmp_false).
    reflexivity.
  - unfold MIN_VESTING_DURATION, MAX_VESTING_DURATION. intros Ht Hd Hc.
    unfold CreateVesting.handler, CreateVesting.require_max_duration_and_cliff.
    unfold MIN_VESTING_DURATION, MAX_VESTING_DURATION.
    rewrite Z.gtb_ltb, Z.geb_leb.
    replace (0 <? total_amount) with true by (symmetry; cmp_true).
    replace (86400 <=? vesting_duration) with true by (symmetry; cmp_true).
    replace (vesting_duration <=? 315360000) with true by (symmetry; cmp_true).
    replace (cliff_duration <=? vesting_duration) with false
      by (symmetry; cmp_false).
    reflexivity.
  - intros Ht Hd Hc Hn.
    rewrite handler_after_cliff_check by assumption.
    rewrite cliff_percentage_negative by assumption. reflexivity.
  - intros Ht Hd Hc Hp.
    rewrite handler_after_cliff_check by lia.
    unfold MIN_VESTING_DURATION, MAX_VESTING_DURATION, MAX_CLIFF_PERCENTAGE in *.
    rewrite cliff_percentage_value by (unfold u64_max, i64_max; lia).
    simpl.
    replace (cliff_duration * 100 / vesting_duration <=? 50) with false
      by (symmetry; cmp_false).
    reflexivity.
  - intros Ht Hd Hc Hp Hs.
    rewrite handler_after_cliff_check by lia.
    unfold MIN_VESTING_DURATION, MAX_VESTING_DURATION, MAX_CLIFF_PERCENTAGE in *.
    rewrite cliff_percentage_value by (unfold u64_max, i64_max; lia).
    simpl.
    replace (cliff_duration * 100 / vesting_duration <=? 50) with true
      by (symmetry; cmp_true).
    simpl. rewrite Z.gtb_ltb.
    replace (now <? start_time) with false by (symmetry; cmp_false).
    reflexivity.
  - intros Ht Hd Hc Hp Hs.
    rewrite handler_after_cliff_check by lia.
    unfold MIN_VESTING_DURATION, MAX_VESTING_DURATION, MAX_CLIFF_PERCENTAGE in *.
    rewrite cliff_percentage_value by (unfold u64_max, i64_max; lia).
    simpl.
    replace (cliff_duration * 100 / vesting_duration <=? 50) with true
      by (symmetry; cmp_true).
    simpl. rewrite Z.gtb_ltb.
    replace (now <? start_time) with true by (symmetry; cmp_true).
    simpl. eexists. split; [reflexivity|]. simpl. repeat split.
  - intros Ht Hd. apply Short; [assumption|].
    unfold MIN_VESTING_DURATION. lia.
Qed.

Lemma create_validation_order_witness :
  in_i64 0
  /\ CreateVesting.handler ctx0 1000000000 1700003600 0 3600 1700000000
       = Err DurationTooShort
  /\ CreateVesting.handler ctx0 1000000000 1700003600 5184000 8640000
       1700000000 = Err CliffPercentageTooHigh
  /\ exists s,
       CreateVesting.handler ctx0 1000000000 1700003600 2592000 31536000
         1700000000 = Ok s
       /\ claimed_amount s = 0 /\ is_revoked s = false.
Proof.
  assert (H0 : in_i64 0) by (autounfold with ranges; lia).
  assert (H1 : in_i64 5184000) by (autounfold with ranges; lia).
  assert (H2 : in_i64 2592000) by (autounfold with ranges; lia).
  split; [exact H0|]. split; [|split].
  - destruct (create_validation_order ctx0 1000000000 1700003600 0 3600
                1700000000 H0) as (_ & _ & _ & _ & _ & _ & _ & _ & B).
    apply B; [lia|reflexivity].
  - destruct (create_validation_order ctx0 1000000000 1700003600 5184000
                8640000 1700000000 H1) as (_ & _ & _ & _ & _ & P & _).
    apply P; unfold MIN_VESTING_DURATION, MAX_VESTING_DURATION,
               MAX_CLIFF_PERCENTAGE;
      first [lia | vm_compute; reflexivity].
  - destruct (create_validation_order ctx0 1000000000 1700003600 2592000
                31536000 1700000000 H2)
      as (_ & _ & _ & _ & _ & _ & _ & S & _).
    destruct S as (s & Hs & Hc & Hr & _).
    + lia.
    + unfold MIN_VESTING_DURATION, MAX_VESTING_DURATION. lia.
    + lia.
    + vm_compute. discriminate.
    + lia.
    + exists s. repeat split; assumption.
Defined.

End InstructionFacts.

(** * Overflow of the two sums, revocation *)

Module RevokeFacts.

Import Int Constants State Samples.

(** C7, as the code has it.  In [calculate_vested_amount], for a schedule
    that is not revoked, the sum [start_time + cliff_duration] is computed
    with a checked addition and leaving the [i64] range yields
    [CalculationOverflow]; before that sum the function returns zero
    without computing [start_time + vesting_duration]; from that sum on,
    [start_time + vesting_duration] is computed with a checked addition
    and leaving the [i64] range yields [CalculationOverflow].  The
    frontend's [calculateVestedAmount] has no checked addition: when a
    time field does not fit 53 bits it throws the conversion error of
    [toNumber]. *)
Theorem checked_sums_overflow :
  (forall (s : VestingSchedule) (now : Z),
     is_revoked s = false ->
     (~ in_i64 (start_time s + cliff_duration s) ->
      calculate_vested_amount s now = Err CalculationOverflow)
     /\ (in_i64 (start_time s + cliff_duration s) ->
         now < start_time s + cliff_duration s ->
         calculate_vested_amount s now = Ok 0)
     /\ (in_i64 (start_time s + cliff_duration s) ->
         start_time s + cliff_duration s <= now ->
         ~ in_i64 (start_time s + vesting_duration s) ->
         calculate_vested_amount s now = Err CalculationOverflow))
  /\ (forall (p : Program.VestingSchedule) (now : Z),
        Program.isRevoked p = false -> ~ Program.convertible p ->
        exists e, Program.calculateVestedAmount p now = Err e).
Proof.
  split.
  - intros s now Hr.
    destruct (StateFacts.vested_not_revoked s now Hr) as (H1 & H2 & H3 & _).
    repeat split; assumption.
  - intros p now. apply ProgramFacts.not_convertible_throws.
Qed.

Lemma checked_sums_overflow_witness :
  is_revoked late_start = false
  /\ ~ in_i64 (start_time late_start + vesting_duration late_start)
  /\ calculate_vested_amount late_start (i64_max - 5) = Err CalculationOverflow.
Proof.
  assert (Hno : ~ in_i64 (start_time late_start + vesting_duration late_start)).
  { unfold in_i64, i64_min, i64_max. simpl. lia. }
  split; [reflexivity|]. split; [exact Hno|].
  destruct (proj1 checked_sums_overflow late_start (i64_max - 5) eq_refl)
    as (_ & _ & H3).
  apply H3.
  - unfold in_i64, i64_min, i64_max. simpl. lia.
  - unfold i64_max. simpl. lia.
  - exact Hno.
Defined.

(** The claim of C7 read on every input: an overflow of either sum would
    always surface as [CalculationOverflow].  The schedule [late_start],
    which the create handler accepts at clock 0, has
    [start_time + vesting_duration] beyond the [i64] range, and before its
    cliff the method returns zero; the frontend, given the same account,
    throws the conversion error of [toNumber]. *)
Lemma vesting_end_overflow_unreported :
  CreateVesting.handler ctx0 1000 (i64_max - 10) 5 86400 0 = Ok late_start
  /\ well_typed late_start
  /\ is_revoked late_start = false
  /\ ~ in_i64 (start_time late_start + vesting_duration late_start)
  /\ calculate_vested_amount late_start 0 = Ok 0
  /\ calculate_vested_amount late_start 0 <> Err CalculationOverflow
  /\ Program.calculateVestedAmount (Program.ofAccount late_start) 0
     = Err (JsError "Number can only safely store up to 53 bits").
Proof.
  split; [vm_compute; reflexivity|].
  split.
  { constructor; autounfold with ranges; simpl; lia. }
  split; [reflexivity|].
  split; [unfold in_i64, i64_min, i64_max; simpl; lia|].
  split; [vm_compute; reflexivity|].
  split; [vm_compute; discriminate|].
  vm_compute. reflexivity.
Qed.

(** The sums of the frontend are JavaScript number additions.  With a
    start at [2^53 - 1] and a cliff of two seconds the cliff threshold
    rounds down to [2^53], and at time [2^53], one second before the cliff
    really ends, one unit counts as vested. *)
Example frontend_sum_rounds :
  let s := {| Program.admin := "admin"%string;
              Program.beneficiary := "beneficiary"%string;
              Program.mint := "mint"%string;
              Program.totalAmount := 86400; Program.claimedAmount := 0;
              Program.startTime := 2 ^ 53 - 1; Program.cliffDuration := 2;
              Program.vestingDuration := 86400;
              Program.isRevoked := false; Program.revokedAmount := 0;
              Program.bump := 255; Program.vaultBump := 254 |} in
  2 ^ 53 < Program.startTime s + Program.cliffDuration s
  /\ Program.calculateVestedAmount s (2 ^ 53) = Ok 1.
Proof.
  split; [simpl; lia|vm_compute; reflexivity].
Qed.

(** The revoke handler on a schedule that is not revoked and whose vested
    amount is [v]. *)
Lemma revoke_handler_value (s : VestingSchedule) (now v : Z) :
  is_revoked s = false ->
  calculate_vested_amount s now = Ok v ->
  Revoke.handler s now =
    if v =? total_amount s then Err VestingCompleted
    else if in_u64b (total_amount s - v)
         then Ok (total_amount s - v,
                  Revoke.set_revoked s (total_amount s - v))
         else Err CalculationOverflow.
Proof.
  intros Hr Hv.
  unfold Revoke.handler, is_fully_vested, calculate_unvested_amount.
  rewrite Hr, Hv. simpl.
  destruct (v =? total_amount s); [reflexivity|]. simpl.
  unfold u64_checked_sub.
  destruct (in_u64b (total_amount s - v)); reflexivity.
Qed.

Lemma revoke_handler_error (s : VestingSchedule) (now : Z) (e : VestingError) :
  is_revoked s = false ->
  calculate_vested_amount s now = Err e ->
  Revoke.handler s now = Err e.
Proof.
  intros Hr He. unfold Revoke.handler, is_fully_vested,
    calculate_unvested_amount.
  rewrite Hr, He. reflexivity.
Qed.

(** Two schedules on which revoking does not go as a handler that knows
    only [AlreadyRevoked] and [VestingCompleted] would.  The first is
    Scenario A revoked at [T+500]: revoking it again fails with
    [VestingRevoked], not with [AlreadyRevoked].  The second is accepted by
    the create handler, is not revoked, and its vested amount never equals
    its total amount; yet at every time the revoke handler fails with
    [CalculationOverflow] and revokes nothing. *)
Lemma revoke_outcomes_differ :
  (Revoke.handler (Revoke.set_revoked (accountA 1700000000) 500) 1700000600
     = Err VestingRevoked
   /\ Revoke.handler (Revoke.set_revoked (accountA 1700000000) 500) 1700000600
        <> Err AlreadyRevoked)
  /\ (CreateVesting.handler ctx0 1000 (Int.i64_max - 2) 5 86400 0
        = Ok cliff_past_i64
      /\ is_revoked cliff_past_i64 = false
      /\ forall now : Z,
           calculate_vested_amount cliff_past_i64 now
             <> Ok (total_amount cliff_past_i64)
           /\ is_fully_vested cliff_past_i64 now = false
           /\ Revoke.handler cliff_past_i64 now = Err CalculationOverflow).
Proof.
  split.
  - split; [reflexivity|]. vm_compute. discriminate.
  - split; [vm_compute; reflexivity|]. split; [reflexivity|].
    intros now.
    assert (He : calculate_vested_amount cliff_past_i64 now
                 = Err CalculationOverflow) by reflexivity.
    split; [rewrite He; discriminate|].
    split.
    + unfold is_fully_vested. rewrite He. reflexivity.
    + apply revoke_handler_error; [reflexivity|exact He].
Qed.

(** C5, as the code has it.  Every outcome of the revoke handler on a
    schedule [s] at time [now]:
    - when [s] is already revoked it fails with [VestingRevoked] (the name
      the source gives to the error of revoking twice);
    - when [s] is not revoked and the vested amount cannot be computed (a
      sum of the start time and a duration leaves [i64]), it fails with the
      error of that computation, which is [CalculationOverflow];
    - when [s] is not revoked and the vested amount equals the total
      amount, it fails with [VestingCompleted];
    - when [s] is not revoked and the vested amount [v] differs from the
      total amount, it returns the unvested amount [total_amount - v] and a
      schedule that differs from [s] only in [is_revoked = true] and
      [revoked_amount = total_amount - v] (the claimed amount and every
      other field are the same), provided [total_amount - v] is a [u64];
      otherwise the checked subtraction fails with [CalculationOverflow];
    - [total_amount - v] is a [u64] on every well-typed schedule with a
      non-negative cliff and a positive duration. *)
Theorem revoke_effect (s : VestingSchedule) (now : Z) :
  (is_revoked s = true -> Revoke.handler s now = Err VestingRevoked)
  /\ (forall e : VestingError,
        is_revoked s = false ->
        calculate_vested_amount s now = Err e ->
        e = CalculationOverflow /\ Revoke.handler s now = Err e)
  /\ (is_revoked s = false ->
      calculate_vested_amount s now = Ok (total_amount s) ->
      Revoke.handler s now = Err VestingCompleted)
  /\ (forall v : Z,
        is_revoked s = false ->
        calculate_vested_amount s now = Ok v -> v <> total_amount s ->
        in_u64 (total_amount s - v) ->
        Revoke.handler s now =
          Ok (total_amount s - v,
              {| admin := admin s;
                 beneficiary := beneficiary s;
                 mint := mint s;
                 total_amount := total_amount s;
                 claimed_amount := claimed_amount s;
                 start_time := start_time s;
                 cliff_duration := cliff_duration s;
                 vesting_duration := vesting_duration s;
                 is_revoked := true;
                 revoked_amount := total_amount s - v;
                 bump := bump s;
                 vault_bump := vault_bump s |}))
  /\ (forall v : Z,
        is_revoked s = false ->
        calculate_vested_amount s now = Ok v -> v <> total_amount s ->
        ~ in_u64 (total_amount s - v) ->
        Revoke.handler s now = Err CalculationOverflow)
  /\ (forall v : Z,
        well_typed s -> 0 <= cliff_duration s -> 0 < vesting_duration s ->
        calculate_vested_amount s now = Ok v ->
        in_u64 (total_amount s - v)).
Proof.
  split; [|split; [|split; [|split; [|split]]]].
  - intros Hr. unfold Revoke.handler. rewrite Hr. reflexivity.
  - intros e Hr He. split.
    + destruct e; try reflexivity;
        exfalso; revert He; unfold calculate_vested_amount; rewrite Hr;
        repeat (match goal with
                | |- context [ok_or ?o _] => destruct o
                | |- context [if ?b then _ else _] => destruct b
                end; cbn [ok_or bind]);
        discriminate.
    + apply revoke_handler_error; assumption.
  - intros Hr Hv. rewrite (revoke_handler_value s now _ Hr Hv).
    rewrite Z.eqb_refl. reflexivity.
  - intros v Hr Hv Hne Hu.
    rewrite (revoke_handler_value s now v Hr Hv).
    destruct (Z.eqb_spec v (total_amount s)); [contradiction|].
    destruct (StateFacts.in_u64b_spec (total_amount s - v)) as [_|Hn];
      [reflexivity|contradiction].
  - intros v Hr Hv Hne Hu.
    rewrite (revoke_handler_value s now v Hr Hv).
    destruct (Z.eqb_spec v (total_amount s)); [contradiction|].
    destruct (StateFacts.in_u64b_spec (total_amount s - v)) as [Hy|_];
      [contradiction|reflexivity].
  - intros v Hwt Hc Hd Hv.
    pose proof (StateFacts.vested_bounds s now v Hwt Hc Hd Hv) as Hb.
    destruct Hwt as [Ht _ _ _ _ _]. unfold in_u64 in *. lia.
Qed.

Lemma revoke_effect_witness :
  is_revoked (accountA 1700000000) = false
  /\ calculate_vested_amount (accountA 1700000000) 1700000500 = Ok 500
  /\ 500 <> total_amount (accountA 1700000000)
  /\ in_u64 (total_amount (accountA 1700000000) - 500)
  /\ Revoke.handler (accountA 1700000000) 1700000500
       = Ok (500, Revoke.set_revoked (accountA 1700000000) 500).
Proof.
  split; [reflexivity|]. split; [vm_compute; reflexivity|].
  split; [simpl; lia|].
  split; [autounfold with ranges; simpl; lia|].
  apply (proj1 (proj2 (proj2 (proj2
           (revoke_effect (accountA 1700000000) 1700000500)))) 500).
  - reflexivity.
  - vm_compute; reflexivity.
  - simpl; lia.
  - autounfold with ranges; simpl; lia.
Defined.

(** C4. On a revoked schedule the frontend's vested amount is
    [totalAmount - revokedAmount] at every time.  Hence, when the claimed
    amount does not exceed that value (the invariant that claims never
    outrun vesting), the claimable amount is
    [(totalAmount - revokedAmount) - claimedAmount] at every time; and
    this is the case for the account the revoke handler returns, decoded
    by the client, whenever the claimed amount did not exceed the vested
    amount at the time of revocation. *)
Theorem revoked_amounts_constant :
  (forall (s : Program.VestingSchedule) (now : Z),
     Program.isRevoked s = true ->
     Program.calculateVestedAmount s now
       = Ok (Program.totalAmount s - Program.revokedAmount s))
  /\ (forall (s : Program.VestingSchedule) (t : Z),
        Program.isRevoked s = true ->
        Program.claimedAmount s
          <= Program.totalAmount s - Program.revokedAmount s ->
        Program.calculateClaimableAmount s t
          = Ok (Program.totalAmount s - Program.revokedAmount s
                - Program.claimedAmount s))
  /\ (forall (a a' : VestingSchedule) (r v unvested t : Z),
        calculate_vested_amount a r = Ok v ->
        claimed_amount a <= v ->
        Revoke.handler a r = Ok (unvested, a') ->
        Program.calculateClaimableAmount (Program.ofAccount a') t
          = Ok (total_amount a' - revoked_amount a' - claimed_amount a')).
Proof.
  assert (Vested : forall (s : Program.VestingSchedule) (now : Z),
     Program.isRevoked s = true ->
     Program.calculateVestedAmount s now
       = Ok (Program.totalAmount s - Program.revokedAmount s)).
  { intros s now Hr. unfold Program.calculateVestedAmount. rewrite Hr.
    reflexivity. }
  assert (Claimable : forall (s : Program.VestingSchedule) (t : Z),
        Program.isRevoked s = true ->
        Program.claimedAmount s
          <= Program.totalAmount s - Program.revokedAmount s ->
        Program.calculateClaimableAmount s t
          = Ok (Program.totalAmount s - Program.revokedAmount s
                - Program.claimedAmount s)).
  { intros s t Hr Hc. unfold Program.calculateClaimableAmount.
    rewrite (Vested s t Hr). rewrite bind_ok.
    change (BN.ofNumber 0) with (@Ok Exception Z 0). rewrite bind_ok.
    unfold BN.gt, BN.sub.
    destruct (Z.gtb_spec (Program.totalAmount s - Program.revokedAmount s
                          - Program.claimedAmount s) 0);
      [reflexivity|f_equal; lia]. }
  split; [exact Vested|]. split; [exact Claimable|].
  intros a a' r v unvested t Hv Hc Hh.
  destruct (is_revoked a) eqn:Hr.
  { unfold Revoke.handler in Hh. rewrite Hr in Hh. discriminate. }
  rewrite (revoke_handler_value a r v Hr Hv) in Hh.
  destruct (v =? total_amount a); [discriminate|].
  destruct (in_u64b (total_amount a - v)); [|discriminate].
  inversion Hh; subst. clear Hh.
  pose proof (Claimable
                (Program.ofAccount
                   (Revoke.set_revoked a (total_amount a - v))) t eq_refl)
    as K.
  cbn [Program.ofAccount Revoke.set_revoked Program.totalAmount
       Program.revokedAmount Program.claimedAmount total_amount
       revoked_amount claimed_amount] in K |- *.
  apply K. lia.
Qed.

Lemma revoked_amounts_constant_witness :
  calculate_vested_amount (accountA 1700000000) 1700000500 = Ok 500
  /\ claimed_amount (accountA 1700000000) <= 500
  /\ Revoke.handler (accountA 1700000000) 1700000500
       = Ok (500, Revoke.set_revoked (accountA 1700000000) 500)
  /\ Program.calculateClaimableAmount
       (Program.ofAccount (Revoke.set_revoked (accountA 1700000000) 500))
       1700009999 = Ok 500.
Proof.
  split; [vm_compute; reflexivity|]. split; [simpl; lia|].
  split; [vm_compute; reflexivity|].
  apply (proj2 (proj2 revoked_amounts_constant)
           (accountA 1700000000)
           (Revoke.set_revoked (accountA 1700000000) 500)
           1700000500 500 500 1700009999).
  - vm_compute; reflexivity.
  - simpl; lia.
  - vm_compute; reflexivity.
Defined.

End RevokeFacts.

(** * Formatting and parsing token amounts *)

Module FormatFacts.

Import JsString BNString Format.

Example format_1_5 :
  Format.formatTokenAmount 1500000000 9 = Ok (str "1.5").
Proof. vm_compute. reflexivity. Qed.

Example format_whole :
  Format.formatTokenAmount 3000000000 9 = Ok (str "3").
Proof. vm_compute. reflexivity. Qed.

Example format_small :
  Format.formatTokenAmount 1020 6 = Ok (str "0.00102").
Proof. vm_compute. reflexivity. Qed.

Example parse_1_5 :
  Format.parseTokenAmount (str "1.5") 9 = Ok 1500000000.
Proof. vm_compute. reflexivity. Qed.

Example parse_too_many_decimals :
  Format.parseTokenAmount (str "0.123456") 3 = Ok 123.
Proof. vm_compute. reflexivity. Qed.

(** The string constructor at the edge: the empty string is zero, a sign
    or whitespace alone leaves nothing to read, whitespace inside a number
    is dropped and a letter is refused. *)
Example ofString_edges :
  ofString [] = Ok 0
  /\ ofString (str "-") = Err UninitialisedBN
  /\ ofString (str " ") = Err UninitialisedBN
  /\ ofString (str "-12") = Ok (-12)
  /\ ofString (str "1 2") = Ok 12
  /\ ofString (str "1x") = Err (JsError "Invalid character").
Proof. repeat split; vm_compute; reflexivity. Qed.

Lemma digit_cases (k : Z) :
  0 <= k < 10 ->
  k = 0 \/ k = 1 \/ k = 2 \/ k = 3 \/ k = 4 \/ k = 5 \/ k = 6 \/ k = 7
  \/ k = 8 \/ k = 9.
Proof. lia. Qed.

Lemma digit_of_digit_char (k : Z) :
  0 <= k < 10 -> digit_of_char (digit_char k) = Some k.
Proof.
  intros H. destruct (digit_cases k H) as [E|[E|[E|[E|[E|[E|[E|[E|[E|E]]]]]]]]];
    subst k; reflexivity.
Qed.

(** A digit is neither whitespace, nor the dot, nor the minus sign. *)
Lemma is_digit_plain (c : ascii) :
  is_digit c ->
  is_space c = false /\ Ascii.eqb c dot_char = false
  /\ Ascii.eqb c minus_char = false.
Proof.
  intros (k & Hk & ->).
  destruct (digit_cases k Hk) as [E|[E|[E|[E|[E|[E|[E|[E|[E|E]]]]]]]]];
    subst k; repeat split; reflexivity.
Qed.

Lemma is_digit_zero : is_digit zero_char.
Proof. exists 0. split; [lia|reflexivity]. Qed.

Lemma parseBase_app (s1 s2 : JsString.t) (r : Z) :
  parseBase (s1 ++ s2) r = bind (parseBase s1 r) (fun v => parseBase s2 v).
Proof.
  revert r. induction s1 as [|c s1 IH]; intros r; simpl.
  - reflexivity.
  - destruct (digit_of_char c); [apply IH|reflexivity].
Qed.

Lemma parseBase_zeros (m : nat) (r : Z) :
  parseBase (repeat zero_char m) r = Ok (r * 10 ^ Z.of_nat m).
Proof.
  revert r. induction m as [|m IH]; intros r.
  - simpl. f_equal. lia.
  - cbn [repeat parseBase].
    change (digit_of_char zero_char) with (Some 0). cbv beta iota.
    rewrite IH. f_equal. rewrite Nat2Z.inj_succ, Z.pow_succ_r by lia. lia.
Qed.

(** The digit loop with enough fuel: it puts the decimal digits of [n] in
    front of the accumulator. *)
Lemma digits_loop_spec (fuel : nat) :
  forall (n : Z) (acc : JsString.t),
    (1 <= fuel)%nat -> 0 <= n < 10 ^ Z.of_nat fuel ->
    exists ds,
      digits_loop fuel n acc = ds ++ acc
      /\ Forall is_digit ds
      /\ (forall r, parseBase ds r = Ok (r * 10 ^ Z.of_nat (List.length ds) + n))
      /\ (1 <= List.length ds)%nat
      /\ (forall k : nat, (1 <= k)%nat -> n < 10 ^ Z.of_nat k ->
                          (List.length ds <= k)%nat).
Proof.
  induction fuel as [|fuel IH]; intros n acc Hf Hn.
  - lia.
  - cbn [digits_loop].
    pose proof (Z.mod_pos_bound n 10 ltac:(lia)) as Hm.
    pose proof (Z.div_mod n 10 ltac:(lia)) as Hdm.
    destruct (Z.ltb_spec n 10) as [Hlt|Hge].
    + exists [digit_char (n mod 10)]. rewrite Z.mod_small by lia.
      split; [reflexivity|]. split.
      { constructor; [|constructor]. exists n. split; [lia|reflexivity]. }
      split.
      { intros r. cbn [parseBase].
        rewrite digit_of_digit_char by lia. simpl. f_equal; lia. }
      split; [simpl; lia|]. intros k Hk _. simpl. lia.
    + assert (Hfuel : (1 <= fuel)%nat).
      { destruct fuel; [simpl in Hn; lia|lia]. }
      assert (Hq : 0 <= n / 10 < 10 ^ Z.of_nat fuel).
      { split; [apply Z.div_pos; lia|].
        apply Z.div_lt_upper_bound; [lia|].
        rewrite Nat2Z.inj_succ, Z.pow_succ_r in Hn by lia. lia. }
      destruct (IH (n / 10) (digit_char (n mod 10) :: acc) Hfuel Hq)
        as (ds & Heq & Hdig & Hparse & Hlen & Hbound).
      exists (ds ++ [digit_char (n mod 10)]).
      split; [rewrite Heq, <- app_assoc; reflexivity|]. split.
      { apply Forall_app. split; [assumption|].
        constructor; [|constructor].
        exists (n mod 10). split; [lia|reflexivity]. }
      split.
      { intros r. rewrite parseBase_app, Hparse, bind_ok.
        cbn [parseBase]. rewrite digit_of_digit_char by lia.
        f_equal. rewrite length_app. cbn [List.length].
        replace (Z.of_nat (List.length ds + 1))
          with (Z.succ (Z.of_nat (List.length ds))) by lia.
        rewrite Z.pow_succ_r by lia. lia. }
      split; [rewrite length_app; simpl; lia|].
      intros k Hk Hnk. rewrite length_app. cbn [List.length].
      destruct k as [|k]; [lia|].
      destruct k as [|k]; [simpl in Hnk; lia|].
      assert (List.length ds <= S k)%nat; [|lia].
      apply Hbound; [lia|].
      apply Z.div_lt_upper_bound; [lia|].
      rewrite Nat2Z.inj_succ, Z.pow_succ_r in Hnk by lia. lia.
Qed.

Lemma digits_fuel_enough (n : Z) :
  0 <= n -> n < 10 ^ Z.of_nat (S (Z.to_nat (Z.log2 n))).
Proof.
  intros Hn. rewrite Nat2Z.inj_succ, Z2Nat.id by apply Z.log2_nonneg.
  destruct (Z.eq_dec n 0) as [->|Hne]; [simpl; lia|].
  pose proof (Z.log2_spec n ltac:(lia)) as [_ Hhi].
  apply Z.lt_le_trans with (1 := Hhi).
  apply Z.pow_le_mono_l. pose proof (Z.log2_nonneg n). lia.
Qed.

(** The decimal text of a non-negative integer: digits only, at least one,
    reading back to the integer. *)
Lemma digits_spec (n : Z) :
  0 <= n ->
  Forall is_digit (digits n)
  /\ (forall r, parseBase (digits n) r
                = Ok (r * 10 ^ Z.of_nat (List.length (digits n)) + n))
  /\ (1 <= List.length (digits n))%nat
  /\ (forall k : nat, (1 <= k)%nat -> n < 10 ^ Z.of_nat k ->
                      (List.length (digits n) <= k)%nat).
Proof.
  intros Hn. unfold digits.
  destruct (digits_loop_spec (S (Z.to_nat (Z.log2 n))) n []
              (le_n_S _ _ (Nat.le_0_l _))
              (conj Hn (digits_fuel_enough n Hn)))
    as (ds & Heq & H).
  rewrite Heq, app_nil_r. exact H.
Qed.

Lemma trim_spec (s : JsString.t) :
  exists m : nat, s = trimTrailingZeros s ++ repeat zero_char m.
Proof.
  induction s as [|c r [m IH]].
  - exists 0%nat. reflexivity.
  - cbn [trimTrailingZeros].
    destruct (trimTrailingZeros r) as [|x r'] eqn:Ht.
    + destruct (Ascii.eqb_spec c zero_char) as [->|Hne].
      * exists (S m). rewrite IH at 1. reflexivity.
      * exists m. rewrite IH at 1. reflexivity.
    + exists m. rewrite IH at 1. reflexivity.
Qed.

Lemma split_no_sep (sep : ascii) (s : JsString.t) :
  Forall (fun c => Ascii.eqb c sep = false) s -> split sep s = [s].
Proof.
  induction 1 as [|c s Hc _ IH]; [reflexivity|].
  cbn [split]. rewrite Hc, IH. reflexivity.
Qed.

Lemma split_at_sep (sep : ascii) (s1 s2 : JsString.t) :
  Forall (fun c => Ascii.eqb c sep = false) s1 ->
  split sep (s1 ++ sep :: s2) = s1 :: split sep s2.
Proof.
  induction 1 as [|c s Hc _ IH].
  - cbn [app split]. rewrite Ascii.eqb_refl. reflexivity.
  - cbn [app split]. rewrite Hc, IH. reflexivity.
Qed.

Lemma filter_digits (s : JsString.t) :
  Forall is_digit s -> filter (fun c => negb (is_space c)) s = s.
Proof.
  induction 1 as [|c s Hc _ IH]; [reflexivity|].
  cbn [filter]. destruct (is_digit_plain c Hc) as (-> & _). cbn [negb].
  rewrite IH. reflexivity.
Qed.

Lemma digits_no_dot (s : JsString.t) :
  Forall is_digit s -> Forall (fun c => Ascii.eqb c dot_char = false) s.
Proof.
  intros H. eapply Forall_impl; [|exact H].
  intros c Hc. apply (is_digit_plain c Hc).
Qed.

(** The string constructor on a non-empty string of digits. *)
Lemma ofString_digits (s : JsString.t) :
  Forall is_digit s -> s <> [] -> ofString s = parseBase s 0.
Proof.
  intros Hd Hne. unfold ofString.
  destruct s as [|c s]; [contradiction|].
  rewrite filter_digits by assumption.
  inversion Hd as [|? ? Hc _]; subst.
  destruct (is_digit_plain c Hc) as (_ & _ & ->). reflexivity.
Qed.

(** The formatter on a non-negative amount: the integer part, and the
    fractional part padded to [decimals] digits and then trimmed. *)
Lemma formatTokenAmount_value (amount : Z) (decimals : nat) :
  0 <= amount -> Z.of_nat decimals < 2 ^ 53 ->
  formatTokenAmount amount decimals =
    Ok (match trimTrailingZeros
                (padStart (digits (amount mod 10 ^ Z.of_nat decimals))
                          decimals zero_char) with
        | _ :: _ =>
            digits (amount / 10 ^ Z.of_nat decimals)
            ++ dot_char
               :: trimTrailingZeros
                    (padStart (digits (amount mod 10 ^ Z.of_nat decimals))
                              decimals zero_char)
        | [] => digits (amount / 10 ^ Z.of_nat decimals)
        end).
Proof.
  intros Ha Hd.
  assert (HD : 0 < 10 ^ Z.of_nat decimals) by (apply Z.pow_pos_nonneg; lia).
  pose proof (Z.mod_pos_bound amount _ HD) as HF.
  assert (HI : 0 <= amount / 10 ^ Z.of_nat decimals)
    by (apply Z.div_pos; lia).
  unfold formatTokenAmount.
  change (BN.ofNumber 10) with (@Ok Exception Z 10). rewrite bind_ok.
  rewrite ofNumber_ok by lia. rewrite bind_ok.
  unfold BN.pow, BN.div, BN.mod_.
  destruct (Z.eqb_spec (10 ^ Z.of_nat decimals) 0) as [E|_]; [lia|].
  rewrite !bind_ok.
  rewrite Z.quot_div_nonneg, Z.rem_mod_nonneg by lia.
  unfold toString.
  destruct (Z.ltb_spec (amount mod 10 ^ Z.of_nat decimals) 0); [lia|].
  destruct (Z.ltb_spec (amount / 10 ^ Z.of_nat decimals) 0); [lia|].
  destruct (trimTrailingZeros _); reflexivity.
Qed.

(** C10. Formatting a non-negative token amount with [decimals >= 1]
    decimals and parsing the text back with the same [decimals] gives the
    amount again.  ([decimals] is a JavaScript number: the bound keeps it
    an exact integer.) *)
Theorem format_parse_roundtrip (amount : Z) (decimals : nat) :
  0 <= amount -> (1 <= decimals)%nat -> Z.of_nat decimals < 2 ^ 53 ->
  exists text : JsString.t,
    formatTokenAmount amount decimals = Ok text
    /\ parseTokenAmount text decimals = Ok amount.
Proof.
  intros Ha Hd1 Hd.
  assert (HD : 0 < 10 ^ Z.of_nat decimals) by (apply Z.pow_pos_nonneg; lia).
  pose proof (Z.mod_pos_bound amount _ HD) as HF.
  pose proof (Z.div_mod amount (10 ^ Z.of_nat decimals) ltac:(lia)) as Hdm.
  assert (HI : 0 <= amount / 10 ^ Z.of_nat decimals)
    by (apply Z.div_pos; lia).
  rewrite formatTokenAmount_value by assumption.
  eexists. split; [reflexivity|].
  set (I := amount / 10 ^ Z.of_nat decimals) in *.
  set (F := amount mod 10 ^ Z.of_nat decimals) in *.
  destruct (digits_spec I HI) as (HdigI & HparseI & HlenI & _).
  destruct (digits_spec F (proj1 HF)) as (HdigF & HparseF & _ & HboundF).
  pose proof (HboundF decimals Hd1 (proj2 HF)) as HlenF.
  set (fs := padStart (digits F) decimals zero_char).
  assert (Hfs_len : List.length fs = decimals).
  { unfold fs, padStart. rewrite length_app, repeat_length. lia. }
  assert (Hfs_dig : Forall is_digit fs).
  { unfold fs, padStart. apply Forall_app. split; [|assumption].
    apply Forall_forall. intros c Hc. apply repeat_spec in Hc. subst c.
    apply is_digit_zero. }
  assert (Hfs_parse : forall r, parseBase fs r
                                = Ok (r * 10 ^ Z.of_nat decimals + F)).
  { intros r. unfold fs, padStart.
    rewrite parseBase_app, parseBase_zeros, bind_ok, HparseF. f_equal.
    rewrite <- Z.mul_assoc, <- Z.pow_add_r by lia.
    replace (Z.of_nat (decimals - List.length (digits F))
             + Z.of_nat (List.length (digits F)))
      with (Z.of_nat decimals) by lia.
    reflexivity. }
  destruct (trim_spec fs) as [m Htrim].
  set (tr := trimTrailingZeros fs) in *.
  assert (Htr_dig : Forall is_digit tr).
  { rewrite Htrim in Hfs_dig. apply Forall_app in Hfs_dig. tauto. }
  assert (Hm : (decimals - List.length tr)%nat = m).
  { rewrite <- Hfs_len. rewrite Htrim at 1.
    rewrite length_app, repeat_length. lia. }
  assert (Hparts :
    match tr with
    | _ :: _ => split dot_char (digits I ++ dot_char :: tr)
    | [] => split dot_char (digits I)
    end = digits I :: match tr with _ :: _ => [tr] | [] => [] end).
  { destruct tr as [|x tr'] eqn:Etr.
    - apply split_no_sep, digits_no_dot, HdigI.
    - rewrite split_at_sep by (apply digits_no_dot, HdigI).
      rewrite split_no_sep by (apply digits_no_dot, Htr_dig). reflexivity. }
  assert (Hpadded : slice0 (padEnd tr decimals zero_char) decimals = fs).
  { unfold slice0, padEnd. rewrite Hm, <- Htrim.
    apply firstn_all2. lia. }
  assert (Hfull : ofString (digits I ++ fs) = Ok amount).
  { rewrite ofString_digits.
    - rewrite parseBase_app, HparseI, bind_ok, Hfs_parse. f_equal. lia.
    - apply Forall_app. split; assumption.
    - destruct (digits I); [simpl in HlenI; lia|discriminate]. }
  unfold parseTokenAmount.
  destruct tr as [|x tr'] eqn:Etr; rewrite Hparts; cbn [nth].
  - rewrite Hpadded. exact Hfull.
  - rewrite Hpadded. exact Hfull.
Qed.

Lemma format_parse_roundtrip_witness :
  0 <= 1500000000 /\ (1 <= 9)%nat
  /\ exists text : JsString.t,
       formatTokenAmount 1500000000 9 = Ok text
       /\ parseTokenAmount text 9 = Ok 1500000000.
Proof.
  split; [lia|]. split; [lia|].
  apply (format_parse_roundtrip 1500000000 9); [lia|lia|simpl; lia].
Defined.

End FormatFacts.

(** * More about the on-chain vested amount *)

Module OnChainFacts.

Import Int State.

(** With a non-negative cliff the linear branch is reached only with a
    positive duration and an elapsed time below it, so the method is this
    function of the two sums. *)
Lemma with_cliff_cases (s : VestingSchedule) (now : Z) :
  well_typed s -> is_revoked s = false -> 0 <= cliff_duration s ->
  in_i64 (start_time s + cliff_duration s) ->
  calculate_vested_amount s now =
    if now <? start_time s + cliff_duration s then Ok 0
    else if in_i64b (start_time s + vesting_duration s) then
      if now >=? start_time s + vesting_duration s then Ok (total_amount s)
      else Ok (total_amount s * (now - start_time s) / vesting_duration s)
    else Err CalculationOverflow.
Proof.
  intros Hwt Hr Hc Hce.
  destruct (StateFacts.vested_not_revoked s now Hr) as (_ & H2 & H3 & H4).
  destruct (Z.ltb_spec now (start_time s + cliff_duration s)) as [Hlt|Hge];
    [apply H2; assumption|].
  destruct (StateFacts.in_i64b_spec (start_time s + vesting_duration s))
    as [Hve|Hve]; [|apply H3; assumption].
  destruct (Z.geb_spec now (start_time s + vesting_duration s)) as [Hend|Hmid];
    [apply H4; assumption|].
  apply StateFacts.vested_linear; try assumption; lia.
Qed.

Lemma linear_value_bounds (total e d : Z) :
  0 <= total -> 0 <= e < d -> 0 <= total * e / d <= total.
Proof.
  intros Ht He. split.
  - apply Z.div_pos; nia.
  - apply Z.div_le_upper_bound; nia.
Qed.

(** X7. On a well-typed schedule that is not revoked and has a
    non-negative cliff, [calculate_vested_amount] fails exactly when a sum
    it evaluates leaves the [i64] range: the cliff end, or the vesting end
    once the cliff end is reached.  The multiplication in [u128] and the
    division never fail, and every returned value lies between zero and
    the total amount. *)
Theorem on_chain_fails_only_on_overflow (s : VestingSchedule) (now : Z) :
  well_typed s -> is_revoked s = false -> 0 <= cliff_duration s ->
  (calculate_vested_amount s now = Err CalculationOverflow <->
     ~ in_i64 (start_time s + cliff_duration s)
     \/ (start_time s + cliff_duration s <= now
         /\ ~ in_i64 (start_time s + vesting_duration s)))
  /\ (calculate_vested_amount s now = Err CalculationOverflow
      \/ exists v, calculate_vested_amount s now = Ok v
                   /\ 0 <= v <= total_amount s).
Proof.
  intros Hwt Hr Hc.
  pose proof Hwt as [Ht _ _ _ _ _]. unfold in_u64 in Ht.
  destruct (StateFacts.in_i64b_spec (start_time s + cliff_duration s))
    as [Hce|Hce].
  - rewrite (with_cliff_cases s now Hwt Hr Hc Hce).
    destruct (Z.ltb_spec now (start_time s + cliff_duration s)) as [Hlt|Hge].
    { split; [split; [discriminate|intros [Ha|[Ha _]]; [contradiction|lia]]|].
      right. exists 0. split; [reflexivity|lia]. }
    destruct (StateFacts.in_i64b_spec (start_time s + vesting_duration s))
      as [Hve|Hve].
    + destruct (Z.geb_spec now (start_time s + vesting_duration s)).
      * split; [split; [discriminate|intros [Ha|[_ Ha]]; contradiction]|].
        right. eexists. split; [reflexivity|lia].
      * split; [split; [discriminate|intros [Ha|[_ Ha]]; contradiction]|].
        right. eexists. split; [reflexivity|].
        apply linear_value_bounds; lia.
    + split; [|left; reflexivity].
      split; [intros _; right; split; assumption|reflexivity].
  - destruct (StateFacts.vested_not_revoked s now Hr) as (H1 & _).
    rewrite (H1 Hce). split; [|left; reflexivity].
    split; [intros _; left; assumption|reflexivity].
Qed.

Lemma on_chain_fails_only_on_overflow_witness :
  well_typed (Samples.accountA 1700000000)
  /\ (calculate_vested_amount (Samples.accountA 1700000000) 1700000321
        = Err CalculationOverflow
      \/ exists v,
           calculate_vested_amount (Samples.accountA 1700000000) 1700000321
             = Ok v /\ 0 <= v <= 1000).
Proof.
  assert (Hwt : well_typed (Samples.accountA 1700000000))
    by (constructor; autounfold with ranges; simpl; lia).
  split; [exact Hwt|].
  apply (proj2 (on_chain_fails_only_on_overflow
                  (Samples.accountA 1700000000) 1700000321 Hwt eq_refl
                  ltac:(simpl; lia))).
Defined.

(** X8. On a well-typed schedule that is not revoked and has a
    non-negative cliff, the on-chain vested amount never decreases with
    time: two returned values at [t1 <= t2] are in that order. *)
Theorem on_chain_monotone (s : VestingSchedule) (t1 t2 v1 v2 : Z) :
  well_typed s -> is_revoked s = false -> 0 <= cliff_duration s ->
  t1 <= t2 ->
  calculate_vested_amount s t1 = Ok v1 ->
  calculate_vested_amount s t2 = Ok v2 ->
  v1 <= v2.
Proof.
  intros Hwt Hr Hc Hle H1 H2.
  pose proof Hwt as [Ht _ _ _ _ _]. unfold in_u64 in Ht.
  destruct (StateFacts.in_i64b_spec (start_time s + cliff_duration s))
    as [Hce|Hce].
  2:{ destruct (StateFacts.vested_not_revoked s t1 Hr) as (E & _).
      rewrite (E Hce) in H1. discriminate. }
  rewrite (with_cliff_cases s t1 Hwt Hr Hc Hce) in H1.
  rewrite (with_cliff_cases s t2 Hwt Hr Hc Hce) in H2.
  destruct (Z.ltb_spec t1 (start_time s + cliff_duration s));
    destruct (Z.ltb_spec t2 (start_time s + cliff_duration s)); try lia.
  - inversion H1; inversion H2; lia.
  - inversion H1; subst v1.
    destruct (in_i64b (start_time s + vesting_duration s)); [|discriminate].
    destruct (Z.geb_spec t2 (start_time s + vesting_duration s));
      inversion H2; subst v2; [lia|].
    apply linear_value_bounds; lia.
  - destruct (in_i64b (start_time s + vesting_duration s)); [|discriminate].
    destruct (Z.geb_spec t1 (start_time s + vesting_duration s));
      destruct (Z.geb_spec t2 (start_time s + vesting_duration s));
      inversion H1; inversion H2; subst v1 v2; try lia.
    + apply linear_value_bounds; lia.
    + apply Z.div_le_mono; nia.
Qed.

Lemma on_chain_monotone_witness :
  well_typed (Samples.accountA 1700000000)
  /\ calculate_vested_amount (Samples.accountA 1700000000) 1700000333 = Ok 333
  /\ calculate_vested_amount (Samples.accountA 1700000000) 1700000777 = Ok 777
  /\ 333 <= 777.
Proof.
  assert (Hwt : well_typed (Samples.accountA 1700000000))
    by (constructor; autounfold with ranges; simpl; lia).
  assert (H1 : calculate_vested_amount (Samples.accountA 1700000000)
                 1700000333 = Ok 333) by (vm_compute; reflexivity).
  assert (H2 : calculate_vested_amount (Samples.accountA 1700000000)
                 1700000777 = Ok 777) by (vm_compute; reflexivity).
  split; [exact Hwt|]. split; [exact H1|]. split; [exact H2|].
  apply (on_chain_monotone (Samples.accountA 1700000000)
           1700000333 1700000777 333 777 Hwt eq_refl);
    [simpl; lia|lia|exact H1|exact H2].
Defined.

(** X9. In the linear phase the on-chain amount is rounded down and by
    less than one unit: [vested * vesting_duration] is at most
    [total_amount * elapsed] and misses it by less than
    [vesting_duration]. *)
Theorem on_chain_rounds_down (s : VestingSchedule) (now v : Z) :
  well_typed s -> is_revoked s = false -> 0 <= cliff_duration s ->
  in_i64 (start_time s + cliff_duration s) ->
  in_i64 (start_time s + vesting_duration s) ->
  start_time s + cliff_duration s <= now < start_time s + vesting_duration s ->
  calculate_vested_amount s now = Ok v ->
  v * vesting_duration s <= total_amount s * (now - start_time s)
    < (v + 1) * vesting_duration s.
Proof.
  intros Hwt Hr Hc Hce Hve [Hlo Hhi] Hv.
  rewrite (with_cliff_cases s now Hwt Hr Hc Hce) in Hv.
  destruct (Z.ltb_spec now (start_time s + cliff_duration s)); [lia|].
  destruct (StateFacts.in_i64b_spec (start_time s + vesting_duration s));
    [|contradiction].
  destruct (Z.geb_spec now (start_time s + vesting_duration s)); [lia|].
  inversion Hv; subst v. clear Hv.
  assert (Hd : 0 < vesting_duration s) by lia.
  pose proof (Z.div_mod (total_amount s * (now - start_time s))
                (vesting_duration s) ltac:(lia)) as Hdm.
  pose proof (Z.mod_pos_bound (total_amount s * (now - start_time s))
                (vesting_duration s) Hd) as Hm.
  nia.
Qed.

Lemma on_chain_rounds_down_witness :
  well_typed (CreateVesting.init_schedule Samples.ctx0 1000 0 0 365)
  /\ calculate_vested_amount
       (CreateVesting.init_schedule Samples.ctx0 1000 0 0 365) 100 = Ok 273
  /\ 273 * 365 <= 1000 * (100 - 0) < (273 + 1) * 365.
Proof.
  assert (Hwt : well_typed (CreateVesting.init_schedule Samples.ctx0
                              1000 0 0 365))
    by (constructor; autounfold with ranges; simpl; lia).
  split; [exact Hwt|]. split; [vm_compute; reflexivity|].
  apply (on_chain_rounds_down
           (CreateVesting.init_schedule Samples.ctx0 1000 0 0 365) 100 273
           Hwt eq_refl).
  - simpl; lia.
  - autounfold with ranges; simpl; lia.
  - autounfold with ranges; simpl; lia.
  - simpl; lia.
  - vm_compute; reflexivity.
Defined.



(** X11. The frontend mirror and the program agree: on a well-typed
    account with a non-negative cliff, a positive duration and a revoked
    amount within the total, whose time fields and their sums fit 53 bits,
    [calculateVestedAmount] on the decoded account returns the value
    [calculate_vested_amount] returns, at every time. *)
Theorem frontend_agrees_with_program (a : VestingSchedule) (t : Z) :
  well_typed a ->
  0 <= cliff_duration a -> 0 < vesting_duration a ->
  revoked_amount a <= total_amount a ->
  Z.abs (start_time a) < 2 ^ 53 ->
  cliff_duration a < 2 ^ 53 -> vesting_duration a < 2 ^ 53 ->
  Z.abs (start_time a + cliff_duration a) <= 2 ^ 53 ->
  Z.abs (start_time a + vesting_duration a) <= 2 ^ 53 ->
  exists v,
    calculate_vested_amount a t = Ok v
    /\ Program.calculateVestedAmount (Program.ofAccount a) t = Ok v.
Proof.
  intros Hwt Hc Hd Hrv Hs Hc53 Hd53 Hce Hve.
  pose proof Hwt as [Ht _ _ _ _ Hr]. unfold in_u64 in Ht, Hr.
  destruct (is_revoked a) eqn:Hrev.
  - exists (total_amount a - revoked_amount a). split.
    + unfold calculate_vested_amount. rewrite Hrev.
      unfold u64_saturating_sub.
      destruct (Z.ltb_spec (total_amount a) (revoked_amount a));
        [lia|reflexivity].
    + unfold Program.calculateVestedAmount. simpl. rewrite Hrev. reflexivity.
  - assert (Hi1 : in_i64 (start_time a + cliff_duration a))
      by (autounfold with ranges; lia).
    assert (Hi2 : in_i64 (start_time a + vesting_duration a))
      by (autounfold with ranges; lia).
    eexists. split.
    + apply StateFacts.vested_piecewise; assumption.
    + assert (Hvalid : Program.valid (Program.ofAccount a))
        by (constructor; simpl; lia).
      assert (Hconv : Program.convertible (Program.ofAccount a))
        by (constructor; simpl; lia).
      destruct (ProgramFacts.vested_cases (Program.ofAccount a) t Hrev
                  Hvalid Hconv) as (Heq & _).
      rewrite Heq. unfold JsNumber.add. simpl.
      rewrite !round_double_exact by assumption.
      destruct (Z.ltb_spec t (start_time a + cliff_duration a));
        [reflexivity|].
      destruct (Z.geb_spec t (start_time a + vesting_duration a));
        [reflexivity|].
      rewrite Z.quot_div_nonneg by nia. reflexivity.
Qed.

Lemma frontend_agrees_with_program_witness :
  well_typed (Samples.accountA 1700000000)
  /\ exists v,
       calculate_vested_amount (Samples.accountA 1700000000) 1700000432 = Ok v
       /\ Program.calculateVestedAmount
            (Program.ofAccount (Samples.accountA 1700000000)) 1700000432
          = Ok v.
Proof.
  assert (Hwt : well_typed (Samples.accountA 1700000000))
    by (constructor; autounfold with ranges; simpl; lia).
  split; [exact Hwt|].
  apply (frontend_agrees_with_program (Samples.accountA 1700000000)
           1700000432 Hwt); simpl; lia.
Defined.

(** X12. Revocation is final and freezes the vested amount: on the account
    a successful revoke returns, every further revoke fails with
    [VestingRevoked], and [calculate_vested_amount] returns the same value
    at every time, the total amount minus the revoked amount (zero if the
    revoked amount were larger). *)
Theorem revoke_is_final (s s' : VestingSchedule) (r unvested : Z) :
  Revoke.handler s r = Ok (unvested, s') ->
  (forall t, Revoke.handler s' t = Err VestingRevoked)
  /\ (forall t, calculate_vested_amount s' t
                = Ok (u64_saturating_sub (total_amount s) unvested))
  /\ revoked_amount s' = unvested.
Proof.
  intros H. unfold Revoke.handler in H.
  destruct (is_revoked s); [discriminate|]. cbn [negb require bind] in H.
  destruct (is_fully_vested s r); [discriminate|]. cbn [negb require bind] in H.
  destruct (calculate_unvested_amount s r) as [u|e]; [|discriminate].
  cbn [bind] in H. inversion H; subst. clear H.
  split; [|split].
  - intros t. unfold Revoke.handler. reflexivity.
  - intros t. unfold calculate_vested_amount. reflexivity.
  - reflexivity.
Qed.

Lemma revoke_is_final_witness :
  Revoke.handler (Samples.accountA 1700000000) 1700000500
    = Ok (500, Revoke.set_revoked (Samples.accountA 1700000000) 500)
  /\ Revoke.handler (Revoke.set_revoked (Samples.accountA 1700000000) 500)
       1700000900 = Err VestingRevoked
  /\ calculate_vested_amount
       (Revoke.set_revoked (Samples.accountA 1700000000) 500) 1700000900
     = Ok 500.
Proof.
  assert (H : Revoke.handler (Samples.accountA 1700000000) 1700000500
              = Ok (500, Revoke.set_revoked (Samples.accountA 1700000000) 500))
    by (vm_compute; reflexivity).
  split; [exact H|].
  destruct (revoke_is_final _ _ _ _ H) as (H1 & H2 & _).
  split; [apply H1|apply H2].
Defined.

End OnChainFacts.

(** * The schedule listing of the frontend *)

Module InfoFacts.

Import Program Info.

Lemma claimable_of_vested (s : VestingSchedule) (t v : Z) :
  calculateVestedAmount s t = Ok v ->
  calculateClaimableAmount s t = Ok (Z.max 0 (v - claimedAmount s)).
Proof.
  intros Hv. unfold calculateClaimableAmount. rewrite Hv, bind_ok.
  change (BN.ofNumber 0) with (@Ok Exception Z 0). rewrite bind_ok.
  unfold BN.gt, BN.sub.
  destruct (Z.gtb_spec (v - claimedAmount s) 0); f_equal; lia.
Qed.

(** The vested amount of a valid schedule whose time fields convert. *)
Lemma vested_range (s : VestingSchedule) (t : Z) :
  valid s -> convertible s ->
  exists v, calculateVestedAmount s t = Ok v /\ 0 <= v <= totalAmount s.
Proof.
  intros Hv Hc.
  destruct (ProgramFacts.bounded_when_convertible s t Hv Hc) as (v & Heq & Hle).
  exists v. split; [exact Heq|]. split; [|exact Hle].
  destruct (isRevoked s) eqn:Hr.
  - unfold calculateVestedAmount in Heq. rewrite Hr in Heq.
    inversion Heq. unfold BN.sub. destruct Hv as [_ _ _ Hrev]. lia.
  - destruct (ProgramFacts.vested_cases s t Hr Hv Hc) as (Hcases & Hlo & _).
    rewrite Hcases in Heq. inversion Heq as [Hval]. clear Heq.
    destruct Hv as [Htot Hcl Hdur Hrev].
    destruct (Z.ltb_spec t (JsNumber.add (startTime s) (cliffDuration s)));
      [lia|].
    destruct (Z.geb_spec t (JsNumber.add (startTime s) (vestingDuration s)));
      [lia|].
    apply ProgramFacts.quot_nonneg; lia.
Qed.

(** X13. On a valid schedule that is not revoked and whose time fields
    convert, the claimable amount of the frontend is computed at every
    time, is never negative and never decreases as time advances (the
    claimed amount being the same). *)
Theorem claimable_monotone (s : VestingSchedule) (t1 t2 : Z) :
  isRevoked s = false -> valid s -> convertible s -> t1 <= t2 ->
  exists c1 c2,
    calculateClaimableAmount s t1 = Ok c1
    /\ calculateClaimableAmount s t2 = Ok c2
    /\ 0 <= c1 <= c2.
Proof.
  intros Hr Hv Hc Hle.
  destruct (ProgramFacts.monotone_when_convertible s t1 t2 Hr Hv Hc Hle)
    as (v1 & v2 & H1 & H2 & Hmono).
  exists (Z.max 0 (v1 - claimedAmount s)), (Z.max 0 (v2 - claimedAmount s)).
  split; [apply claimable_of_vested; assumption|].
  split; [apply claimable_of_vested; assumption|lia].
Qed.

Lemma claimable_monotone_witness :
  isRevoked (scenarioA 1700000000) = false
  /\ 1700000400 <= 1700000600
  /\ exists c1 c2,
       calculateClaimableAmount (scenarioA 1700000000) 1700000400 = Ok c1
       /\ calculateClaimableAmount (scenarioA 1700000000) 1700000600 = Ok c2
       /\ 0 <= c1 <= c2.
Proof.
  split; [reflexivity|]. split; [lia|].
  apply (claimable_monotone (scenarioA 1700000000) 1700000400 1700000600).
  - reflexivity.
  - constructor; simpl; lia.
  - constructor; simpl; lia.
  - lia.
Defined.

(** The callback once the time fields convert. *)
Lemma toVestingInfo_value (pk : Pubkey) (s : VestingSchedule) (t v : Z) :
  convertible s ->
  calculateVestedAmount s t = Ok v ->
  toVestingInfo pk s t =
    bind (if totalAmount s >? 0
          then bind (BN.div (v * 100) (totalAmount s)) BN.toNumber
          else Ok 0)
      (fun p =>
         Ok {| publicKey := pk;
               account := s;
               vestedAmount := v;
               claimableAmount := Z.max 0 (v - claimedAmount s);
               cliffEnd :=
                 JsDate.make (JsNumber.add (times (startTime s) 1000)
                                           (times (cliffDuration s) 1000));
               vestingEnd :=
                 JsDate.make (JsNumber.add (times (startTime s) 1000)
                                           (times (vestingDuration s) 1000));
               percentVested := p |}).
Proof.
  intros [Hs Hc Hd] Hv. unfold toVestingInfo.
  rewrite Hv, bind_ok. rewrite (claimable_of_vested s t v Hv), bind_ok.
  rewrite !toNumber_ok by assumption. rewrite !bind_ok.
  change (BN.ofNumber 0) with (@Ok Exception Z 0). rewrite bind_ok.
  change (BN.ofNumber 100) with (@Ok Exception Z 100).
  unfold BN.gt, BN.mul.
  destruct (totalAmount s >? 0); reflexivity.
Qed.

Lemma percent_value (total v : Z) :
  0 <= v <= total ->
  exists p,
    (if total >? 0 then bind (BN.div (v * 100) total) BN.toNumber else Ok 0)
      = Ok p
    /\ 0 <= p <= 100
    /\ (total = 0 -> p = 0)
    /\ (0 < total -> (p = 100 <-> v = total)).
Proof.
  intros Hv.
  destruct (Z.gtb_spec total 0) as [Hpos|Hzero].
  - rewrite div_ok by lia. rewrite bind_ok.
    rewrite Z.quot_div_nonneg by lia.
    assert (Hp : 0 <= v * 100 / total <= 100).
    { split; [apply Z.div_pos; lia|apply Z.div_le_upper_bound; lia]. }
    rewrite toNumber_ok by lia.
    eexists. split; [reflexivity|]. split; [exact Hp|]. split; [lia|].
    intros _. split.
    + intros H100.
      assert (100 * total <= v * 100); [|lia].
      rewrite <- H100 at 1. rewrite Z.mul_comm. apply Z.mul_div_le. lia.
    + intros Heq. rewrite Heq, (Z.mul_comm total 100), Z.div_mul by lia.
      reflexivity.
  - exists 0. split; [reflexivity|]. split; [lia|]. split; [reflexivity|lia].
Qed.

(** X14. For a valid schedule whose time fields convert, the listing
    callback returns an entry: its vested amount lies between zero and the
    total, its claimable amount is the vested amount minus the claimed
    amount floored at zero, and its percentage lies between 0 and 100, is
    0 for a zero total (no division takes place) and is 100 only when the
    vested amount equals the total. *)
Theorem listing_entry_bounds (pk : Pubkey) (s : VestingSchedule) (t : Z) :
  valid s -> convertible s ->
  exists info,
    toVestingInfo pk s t = Ok info
    /\ account info = s
    /\ 0 <= vestedAmount info <= totalAmount s
    /\ claimableAmount info = Z.max 0 (vestedAmount info - claimedAmount s)
    /\ 0 <= percentVested info <= 100
    /\ (totalAmount s = 0 -> percentVested info = 0)
    /\ (0 < totalAmount s ->
        (percentVested info = 100 <-> vestedAmount info = totalAmount s)).
Proof.
  intros Hv Hc.
  destruct (vested_range s t Hv Hc) as (v & Heq & Hrange).
  destruct (percent_value (totalAmount s) v Hrange)
    as (p & Hp & Hp100 & Hp0 & Hfull).
  rewrite (toVestingInfo_value pk s t v Hc Heq), Hp, bind_ok.
  eexists. split; [reflexivity|]. cbn [account vestedAmount claimableAmount
                                       percentVested].
  repeat split; try lia; try assumption; apply Hfull; assumption.
Qed.

Lemma listing_entry_bounds_witness :
  valid (scenarioA 1700000000)
  /\ exists info,
       toVestingInfo "key"%string (scenarioA 1700000000) 1700000999 = Ok info
       /\ 0 <= percentVested info <= 100.
Proof.
  assert (Hv : valid (scenarioA 1700000000)) by (constructor; simpl; lia).
  split; [exact Hv|].
  destruct (listing_entry_bounds "key"%string (scenarioA 1700000000)
              1700000999 Hv ltac:(constructor; simpl; lia))
    as (info & H & _ & _ & _ & Hp & _).
  exists info. split; assumption.
Defined.

Lemma bind_inv {E A B : Type} (r : result E A) (k : A -> result E B) (b : B) :
  bind r k = Ok b -> exists a, r = Ok a /\ k a = Ok b.
Proof.
  destruct r as [a|e]; [|discriminate]. intros H. exists a. split; trivial.
Qed.

Lemma toVestingInfo_keeps (pk : Pubkey) (s : VestingSchedule) (t : Z)
  (info : VestingInfo) :
  toVestingInfo pk s t = Ok info -> publicKey info = pk /\ account info = s.
Proof.
  unfold toVestingInfo. intros H.
  repeat (apply bind_inv in H; destruct H as (? & _ & H)).
  inversion H. split; reflexivity.
Qed.

(** X15. The listing is all or nothing: when it succeeds it holds one
    entry per fetched account, in the same order and with the same keys
    and accounts; when the callback throws on any one account (a time
    field beyond 53 bits, say) the whole listing throws. *)
Theorem listing_all_or_nothing
  (accounts : list (Pubkey * VestingSchedule)) (t : Z) :
  (forall infos,
     toVestingInfos accounts t = Ok infos ->
     map publicKey infos = map fst accounts
     /\ map account infos = map snd accounts)
  /\ (forall pk s e,
        In (pk, s) accounts -> toVestingInfo pk s t = Err e ->
        exists e', toVestingInfos accounts t = Err e').
Proof.
  induction accounts as [|[pk0 s0] rest [IHok IHerr]].
  - split.
    + intros infos H. inversion H. split; reflexivity.
    + intros pk s e [].
  - split.
    + intros infos H. cbn [toVestingInfos] in H.
      apply bind_inv in H. destruct H as (info & Hinfo & H).
      apply bind_inv in H. destruct H as (infos' & Hrest & H).
      inversion H; subst infos. clear H.
      destruct (toVestingInfo_keeps _ _ _ _ Hinfo) as [Hpk Hacc].
      destruct (IHok infos' Hrest) as [Hpks Haccs].
      cbn [map fst snd]. rewrite Hpk, Hacc, Hpks, Haccs. split; reflexivity.
    + intros pk s e Hin Herr. cbn [toVestingInfos].
      destruct Hin as [Heq|Hin].
      * inversion Heq; subst pk0 s0. rewrite Herr. eexists. reflexivity.
      * destruct (toVestingInfo pk0 s0 t) as [info|e0];
          [|eexists; reflexivity].
        rewrite bind_ok.
        destruct (IHerr pk s e Hin Herr) as [e' ->]. eexists. reflexivity.
Qed.

Lemma listing_all_or_nothing_witness :
  In ("b"%string, ofAccount Samples.late_start)
     [("a"%string, scenarioA 1700000000);
      ("b"%string, ofAccount Samples.late_start)]
  /\ exists e',
       toVestingInfos [("a"%string, scenarioA 1700000000);
                       ("b"%string, ofAccount Samples.late_start)]
                      1700000500 = Err e'.
Proof.
  assert (Hin : In ("b"%string, ofAccount Samples.late_start)
                   [("a"%string, scenarioA 1700000000);
                    ("b"%string, ofAccount Samples.late_start)])
    by (right; left; reflexivity).
  split; [exact Hin|].
  apply (proj2 (listing_all_or_nothing
                  [("a"%string, scenarioA 1700000000);
                   ("b"%string, ofAccount Samples.late_start)] 1700000500)
           "b"%string (ofAccount Samples.late_start)
           (JsError "Number can only safely store up to 53 bits") Hin).
  vm_compute. reflexivity.
Defined.

End InfoFacts.

(** * The vesting card *)

Module CardFacts.

Import Program Info Card.

Lemma geb_mono (t1 t2 x : Z) :
  t1 <= t2 -> (t1 >=? x) = true -> (t2 >=? x) = true.
Proof.
  intros Hle H. destruct (Z.geb_spec t1 x); [|discriminate].
  destruct (Z.geb_spec t2 x); [reflexivity|lia].
Qed.

Lemma reached_mono (t1 t2 : Z) (d : JsDate.t) :
  t1 <= t2 -> JsDate.reached t1 d = true -> JsDate.reached t2 d = true.
Proof.
  destruct d as [v|]; simpl; [apply geb_mono|discriminate].
Qed.

(** X16. On a schedule that is not revoked the status text of the card
    only moves forward as time advances, in the order Not Started, Cliff
    Period, Vesting, Fully Vested, whatever the dates of the entry are;
    it is never Revoked. *)
Theorem status_never_goes_back (schedule : VestingInfo) (t1 t2 : Z)
  (f1 f2 : Flags) :
  isRevoked (account schedule) = false -> t1 <= t2 ->
  flags schedule t1 = Ok f1 -> flags schedule t2 = Ok f2 ->
  (getStatusText schedule f1 = "Fully Vested"%string ->
   getStatusText schedule f2 = "Fully Vested"%string)
  /\ (getStatusText schedule f1 = "Vesting"%string ->
      getStatusText schedule f2 = "Vesting"%string
      \/ getStatusText schedule f2 = "Fully Vested"%string)
  /\ (getStatusText schedule f1 = "Cliff Period"%string ->
      getStatusText schedule f2 <> "Not Started"%string)
  /\ getStatusText schedule f2 <> "Revoked"%string.
Proof.
  intros Hr Hle H1 H2. unfold flags in H1, H2.
  destruct (BN.toNumber (startTime (account schedule))) as [s|e];
    [|discriminate].
  rewrite bind_ok in H1, H2. inversion H1; inversion H2; subst f1 f2.
  clear H1 H2. unfold getStatusText. rewrite Hr.
  cbn [isStarted isCliffReached isFullyVested].
  pose proof (reached_mono t1 t2 (vestingEnd schedule) Hle) as HF.
  pose proof (reached_mono t1 t2 (cliffEnd schedule) Hle) as HC.
  pose proof (geb_mono t1 t2 (times s 1000) Hle) as HS.
  destruct (JsDate.reached t1 (vestingEnd schedule));
    destruct (JsDate.reached t1 (cliffEnd schedule));
    destruct (t1 >=? times s 1000);
    try rewrite (HF eq_refl); try rewrite (HC eq_refl);
    try rewrite (HS eq_refl);
    destruct (JsDate.reached t2 (vestingEnd schedule));
    destruct (JsDate.reached t2 (cliffEnd schedule));
    destruct (t2 >=? times s 1000);
    repeat split; intros; try discriminate; auto.
Qed.

(** X17. The card shows the action label of a button exactly when the
    button is enabled: the claim button reads Claim Tokens iff it is not
    disabled, the revoke button reads Revoke Vesting iff it is not
    disabled.  On a revoked schedule both buttons are disabled and the
    claimable box of the beneficiary view is not shown. *)
Theorem action_label_iff_enabled (schedule : VestingInfo) (loading : bool)
  (f : Flags) :
  (claimLabel schedule loading f = "Claim Tokens"%string
   <-> claimDisabled schedule loading f = false)
  /\ (revokeLabel schedule loading f = "Revoke Vesting"%string
      <-> revokeDisabled schedule loading f = false)
  /\ (isRevoked (account schedule) = true ->
      claimDisabled schedule loading f = true
      /\ revokeDisabled schedule loading f = true
      /\ showsClaimable schedule false f = false).
Proof.
  unfold claimLabel, claimDisabled, revokeLabel, revokeDisabled,
    showsClaimable.
  destruct (isRevoked (account schedule)); destruct loading;
    destruct (isCliffReached f); destruct (isFullyVested f);
    destruct (claimableAmount schedule =? 0); cbn [negb orb andb];
    repeat split; intros; try discriminate; try reflexivity.
Qed.

Lemma status_never_goes_back_witness :
  exists info f1 f2,
    toVestingInfo "key"%string (scenarioA 1700000000) 1700000000 = Ok info
    /\ flags info 1700000200000 = Ok f1
    /\ flags info 1700002000000 = Ok f2
    /\ getStatusText info f1 = "Vesting"%string
    /\ (getStatusText info f2 = "Vesting"%string
        \/ getStatusText info f2 = "Fully Vested"%string).
Proof.
  destruct (toVestingInfo "key"%string (scenarioA 1700000000) 1700000000)
    as [info|e] eqn:Hinfo; [|vm_compute in Hinfo; discriminate].
  destruct (flags info 1700000200000) as [f1|e1] eqn:H1;
    [|vm_compute in Hinfo; inversion Hinfo; subst info;
      vm_compute in H1; discriminate].
  destruct (flags info 1700002000000) as [f2|e2] eqn:H2;
    [|vm_compute in Hinfo; inversion Hinfo; subst info;
      vm_compute in H2; discriminate].
  assert (Hr : isRevoked (account info) = false).
  { vm_compute in Hinfo. inversion Hinfo. reflexivity. }
  assert (Htext : getStatusText info f1 = "Vesting"%string).
  { vm_compute in Hinfo. inversion Hinfo; subst info.
    vm_compute in H1. inversion H1. reflexivity. }
  exists info, f1, f2. split; [reflexivity|]. split; [exact H1|].
  split; [exact H2|]. split; [exact Htext|].
  destruct (status_never_goes_back info 1700000200000 1700002000000 f1 f2
              Hr ltac:(lia) H1 H2) as (_ & Hv & _).
  apply Hv. exact Htext.
Defined.

Lemma action_label_iff_enabled_witness :
  exists info f,
    toVestingInfo "key"%string
      (ofAccount (Revoke.set_revoked (Samples.accountA 1700000000) 500))
      1700000600 = Ok info
    /\ flags info 1700000600000 = Ok f
    /\ isRevoked (account info) = true
    /\ claimableAmount info = 500
    /\ claimDisabled info false f = true.
Proof.
  destruct (toVestingInfo "key"%string
              (ofAccount (Revoke.set_revoked (Samples.accountA 1700000000) 500))
              1700000600) as [info|e] eqn:Hinfo;
    [|vm_compute in Hinfo; discriminate].
  destruct (flags info 1700000600000) as [f|e1] eqn:Hf;
    [|vm_compute in Hinfo; inversion Hinfo; subst info;
      vm_compute in Hf; discriminate].
  assert (Hr : isRevoked (account info) = true)
    by (vm_compute in Hinfo; inversion Hinfo; reflexivity).
  assert (Hc : claimableAmount info = 500)
    by (vm_compute in Hinfo; inversion Hinfo; reflexivity).
  exists info, f. split; [reflexivity|]. split; [exact Hf|].
  split; [exact Hr|]. split; [exact Hc|].
  apply (proj2 (proj2 (action_label_iff_enabled info false f)) Hr).
Defined.

Lemma ms_threshold (ms x : Z) : (ms >=? x * 1000) = (ms / 1000 >=? x).
Proof.
  pose proof (Z.div_mod ms 1000 ltac:(lia)) as Hdm.
  pose proof (Z.mod_pos_bound ms 1000 ltac:(lia)) as Hm.
  destruct (Z.geb_spec ms (x * 1000)); destruct (Z.geb_spec (ms / 1000) x);
    try reflexivity; lia.
Qed.

(** The entry of a schedule whose times are within the range of valid
    dates: the two dates are the exact sums, in milliseconds. *)
Lemma entry_dates (pk : Pubkey) (s : VestingSchedule) (t : Z) :
  valid s ->
  cliffDuration s <= vestingDuration s ->
  Z.abs (startTime s) + vestingDuration s <= 8640000000000 ->
  exists info,
    toVestingInfo pk s t = Ok info
    /\ account info = s
    /\ cliffEnd info = Some ((startTime s + cliffDuration s) * 1000)
    /\ vestingEnd info = Some ((startTime s + vestingDuration s) * 1000).
Proof.
  intros Hv Hcd Hb. pose proof Hv as [Htot Hcl Hdur Hrev].
  assert (Hc : convertible s) by (constructor; lia).
  destruct (InfoFacts.vested_range s t Hv Hc) as (v & Heq & Hrange).
  destruct (InfoFacts.percent_value (totalAmount s) v Hrange)
    as (p & Hp & _).
  rewrite (InfoFacts.toVestingInfo_value pk s t v Hc Heq), Hp, bind_ok.
  eexists. split; [reflexivity|]. cbn [account cliffEnd vestingEnd].
  split; [reflexivity|].
  unfold times, JsNumber.add.
  rewrite (round_double_exact (startTime s * 1000)) by lia.
  rewrite (round_double_exact (cliffDuration s * 1000)) by lia.
  rewrite (round_double_exact (vestingDuration s * 1000)) by lia.
  rewrite !round_double_exact by lia.
  unfold JsDate.make, JsDate.maxTime.
  split.
  - destruct (Z.leb_spec (Z.abs (startTime s * 1000 + cliffDuration s * 1000))
                8640000000000000); [f_equal; lia|lia].
  - destruct (Z.leb_spec
                (Z.abs (startTime s * 1000 + vestingDuration s * 1000))
                8640000000000000); [f_equal; lia|lia].
Qed.

(** X18. The card and the vested amount use the same instants: for a
    valid schedule that is not revoked, with the cliff within the duration
    and its times within the range of dates (8.64e12 seconds), the card's
    started, cliff-reached and fully-vested flags at millisecond time [ms]
    are the comparisons of the second [ms / 1000] with the start, the cliff
    end and the vesting end; before the cliff flag the vested amount at
    that second is zero, and with the fully-vested flag it is the total
    amount. *)
Theorem card_flags_match_vesting (pk : Pubkey) (s : VestingSchedule)
  (t ms : Z) :
  isRevoked s = false -> valid s ->
  cliffDuration s <= vestingDuration s ->
  Z.abs (startTime s) + vestingDuration s <= 8640000000000 ->
  exists info f,
    toVestingInfo pk s t = Ok info
    /\ flags info ms = Ok f
    /\ isStarted f = (ms / 1000 >=? startTime s)
    /\ isCliffReached f = (ms / 1000 >=? startTime s + cliffDuration s)
    /\ isFullyVested f = (ms / 1000 >=? startTime s + vestingDuration s)
    /\ (isCliffReached f = false ->
        calculateVestedAmount s (ms / 1000) = Ok 0)
    /\ (isFullyVested f = true ->
        calculateVestedAmount s (ms / 1000) = Ok (totalAmount s)).
Proof.
  intros Hr Hv Hcd Hb. pose proof Hv as [Htot Hcl Hdur Hrev].
  assert (Hc : convertible s) by (constructor; lia).
  destruct (entry_dates pk s t Hv Hcd Hb) as (info & Hinfo & Hacc & Hce & Hve).
  exists info.
  unfold flags. rewrite Hacc, Hce, Hve.
  rewrite toNumber_ok by lia. rewrite bind_ok.
  eexists. split; [exact Hinfo|]. split; [reflexivity|].
  cbn [isStarted isCliffReached isFullyVested JsDate.reached].
  unfold times. rewrite round_double_exact by lia.
  rewrite !ms_threshold.
  split; [reflexivity|]. split; [reflexivity|]. split; [reflexivity|].
  destruct (ProgramFacts.vested_cases s (ms / 1000) Hr Hv Hc) as (Heq & _).
  rewrite Heq. unfold JsNumber.add. rewrite !round_double_exact by lia.
  split.
  - intros Hno.
    destruct (Z.geb_spec (ms / 1000) (startTime s + cliffDuration s));
      [discriminate|].
    destruct (Z.ltb_spec (ms / 1000) (startTime s + cliffDuration s));
      [reflexivity|lia].
  - intros Hfull.
    destruct (Z.geb_spec (ms / 1000) (startTime s + vestingDuration s));
      [|discriminate].
    destruct (Z.ltb_spec (ms / 1000) (startTime s + cliffDuration s));
      [lia|reflexivity].
Qed.

Lemma card_flags_match_vesting_witness :
  isRevoked (scenarioA 1700000000) = false
  /\ exists info f,
       toVestingInfo "key"%string (scenarioA 1700000000) 1700000000 = Ok info
       /\ flags info 1700000050999 = Ok f
       /\ isCliffReached f = false
       /\ calculateVestedAmount (scenarioA 1700000000) 1700000050 = Ok 0.
Proof.
  split; [reflexivity|].
  destruct (card_flags_match_vesting "key"%string (scenarioA 1700000000)
              1700000000 1700000050999 eq_refl
              ltac:(constructor; simpl; lia) ltac:(simpl; lia)
              ltac:(simpl; lia))
    as (info & f & Hinfo & Hf & _ & Hc & _ & Hzero & _).
  exists info, f. split; [exact Hinfo|]. split; [exact Hf|].
  assert (Hno : isCliffReached f = false) by (rewrite Hc; reflexivity).
  split; [exact Hno|]. apply Hzero. exact Hno.
Defined.

(** X19. After a revocation that leaves vested tokens unclaimed, the
    listing computes a positive claimable amount, yet the card does not
    offer it: for a revoked schedule with
    [claimedAmount < totalAmount - revokedAmount] the entry's claimable
    amount is that difference, the claim button is disabled, its label is
    never Claim Tokens and the claimable box is not shown. *)
Theorem revoked_claimable_not_offered (pk : Pubkey) (s : VestingSchedule)
  (t ms : Z) (loading : bool) :
  isRevoked s = true -> convertible s ->
  0 <= revokedAmount s <= totalAmount s ->
  claimedAmount s < totalAmount s - revokedAmount s ->
  exists info f,
    toVestingInfo pk s t = Ok info
    /\ flags info ms = Ok f
    /\ claimableAmount info
       = totalAmount s - revokedAmount s - claimedAmount s
    /\ 0 < claimableAmount info
    /\ claimDisabled info loading f = true
    /\ claimLabel info loading f <> "Claim Tokens"%string
    /\ showsClaimable info false f = false.
Proof.
  intros Hr Hc Hrev Hlt.
  assert (Hv : calculateVestedAmount s t
               = Ok (totalAmount s - revokedAmount s)).
  { unfold calculateVestedAmount. rewrite Hr. reflexivity. }
  destruct (InfoFacts.percent_value (totalAmount s)
              (totalAmount s - revokedAmount s) ltac:(lia))
    as (p & Hp & _).
  rewrite (InfoFacts.toVestingInfo_value pk s t _ Hc Hv), Hp, bind_ok.
  eexists. eexists. split; [reflexivity|].
  unfold flags. cbn [account]. destruct Hc as [Hs _ _].
  rewrite toNumber_ok by assumption. rewrite bind_ok.
  split; [reflexivity|].
  cbn [claimableAmount]. split; [lia|]. split; [lia|].
  unfold claimDisabled, claimLabel, showsClaimable. cbn [account]. rewrite Hr.
  cbn [isCliffReached].
  destruct (JsDate.reached ms _); destruct loading; cbn [negb orb andb];
    repeat split; try reflexivity; discriminate.
Qed.

Lemma revoked_claimable_not_offered_witness :
  isRevoked (ofAccount (Revoke.set_revoked (Samples.accountA 1700000000) 500))
    = true
  /\ exists info f,
       toVestingInfo "key"%string
         (ofAccount (Revoke.set_revoked (Samples.accountA 1700000000) 500))
         1700000600 = Ok info
       /\ flags info 1700000600000 = Ok f
       /\ 0 < claimableAmount info
       /\ claimDisabled info false f = true.
Proof.
  split; [reflexivity|].
  destruct (revoked_claimable_not_offered "key"%string
              (ofAccount (Revoke.set_revoked (Samples.accountA 1700000000) 500))
              1700000600 1700000600000 false eq_refl
              ltac:(constructor; simpl; lia) ltac:(simpl; lia)
              ltac:(simpl; lia))
    as (info & f & Hinfo & Hf & _ & Hpos & Hdis & _).
  exists info, f. repeat split; assumption.
Defined.

End CardFacts.

(** * Shortened addresses *)

Module AddressFacts.

Import JsSlice Address.

(** X1. For a positive [chars], [shortenAddress] keeps the first and the
    last [min chars length] characters of the address around three dots,
    so the result has [2 * min chars length + 3] characters (an address
    shorter than [chars] appears twice in full). *)
Theorem shortenAddress_keeps_both_ends (address : JsString.t) (chars : Z) :
  0 < chars ->
  let n := Nat.min (Z.to_nat chars) (List.length address) in
  shortenAddress address chars
    = firstn n address ++ ellipsis ++ skipn (List.length address - n) address
  /\ List.length (shortenAddress address chars) = (2 * n + 3)%nat.
Proof.
  intros Hc n.
  assert (Heq : shortenAddress address chars
    = firstn n address ++ ellipsis ++ skipn (List.length address - n) address).
  { unfold shortenAddress, slice, clamp. subst n.
    change (0 <? 0) with false. cbv iota.
    destruct (Z.ltb_spec chars 0); [lia|].
    destruct (Z.ltb_spec (- chars) 0); [|lia].
    rewrite (Z.min_l 0) by lia. rewrite Z.sub_0_r. cbn [Z.to_nat skipn].
    f_equal.
    - f_equal. lia.
    - f_equal.
      replace (Z.to_nat (Z.max (Z.of_nat (List.length address) + - chars) 0))
        with (List.length address
              - Nat.min (Z.to_nat chars) (List.length address))%nat by lia.
      apply firstn_all2. rewrite length_skipn. lia. }
  split; [exact Heq|].
  rewrite Heq. rewrite !length_app, length_firstn, length_skipn.
  change (List.length ellipsis) with 3%nat. subst n. lia.
Qed.

Lemma shortenAddress_keeps_both_ends_witness :
  0 < 4
  /\ shortenAddress (str "4JHtvoNPJ8GzPk5C2M6fvMnFzSkV3intLHVLUvxuZxhM") 4
     = str "4JHt...ZxhM".
Proof.
  split; [lia|].
  apply (proj1 (shortenAddress_keeps_both_ends
                  (str "4JHtvoNPJ8GzPk5C2M6fvMnFzSkV3intLHVLUvxuZxhM") 4
                  ltac:(lia))).
Defined.

(** X2. With [chars = 0] the shortened address is the three dots followed
    by the whole address: [slice(-0)] is [slice(0)], so nothing is cut
    from the end. *)
Theorem shortenAddress_zero_shows_all (address : JsString.t) :
  shortenAddress address 0 = ellipsis ++ address.
Proof.
  unfold shortenAddress, slice, clamp. cbn [Z.opp].
  change (0 <? 0) with false. cbv iota.
  rewrite (Z.min_l 0) by lia.
  change (Z.to_nat (0 - 0)) with 0%nat. change (Z.to_nat 0) with 0%nat.
  cbn [firstn skipn app].
  rewrite Z.sub_0_r, Nat2Z.id. f_equal. apply firstn_all.
Qed.

End AddressFacts.

(** * The text of an amount *)

Module TextFacts.

Import JsString BNString Format.

Lemma trim_last (s : JsString.t) (x : ascii) :
  x <> zero_char -> last (trimTrailingZeros s) x <> zero_char.
Proof.
  intros Hx. induction s as [|c r IH]; [exact Hx|].
  cbn [trimTrailingZeros].
  destruct (trimTrailingZeros r) as [|y r'] eqn:Ht.
  - destruct (Ascii.eqb_spec c zero_char) as [->|Hne]; [exact Hx|exact Hne].
  - exact IH.
Qed.

Lemma trim_zeros (m : nat) : trimTrailingZeros (repeat zero_char m) = [].
Proof.
  induction m as [|m IH]; [reflexivity|].
  cbn [repeat trimTrailingZeros]. rewrite IH. reflexivity.
Qed.

Lemma trim_length (s : JsString.t) :
  (List.length (trimTrailingZeros s) <= List.length s)%nat.
Proof.
  destruct (FormatFacts.trim_spec s) as [m H].
  rewrite H at 2. rewrite length_app. lia.
Qed.

(** X3. The text [formatTokenAmount] gives for a non-negative amount is
    a non-empty run of digits, followed, exactly when the amount is not a
    multiple of [10^decimals], by a dot and between one and [decimals]
    digits whose last one is not zero; the text never ends in a dot or in
    a zero of the fraction. *)
Theorem format_shape (amount : Z) (decimals : nat) :
  0 <= amount -> Z.of_nat decimals < 2 ^ 53 ->
  exists whole fraction : JsString.t,
    formatTokenAmount amount decimals
      = Ok (whole ++ match fraction with
                     | [] => []
                     | _ :: _ => dot_char :: fraction
                     end)
    /\ Forall is_digit whole /\ whole <> []
    /\ Forall is_digit fraction
    /\ (List.length fraction <= decimals)%nat
    /\ last fraction dot_char <> zero_char
    /\ (fraction = [] <-> amount mod 10 ^ Z.of_nat decimals = 0).
Proof.
  intros Ha Hd.
  assert (HD : 0 < 10 ^ Z.of_nat decimals) by (apply Z.pow_pos_nonneg; lia).
  pose proof (Z.mod_pos_bound amount _ HD) as HF.
  assert (HI : 0 <= amount / 10 ^ Z.of_nat decimals)
    by (apply Z.div_pos; lia).
  rewrite FormatFacts.formatTokenAmount_value by assumption.
  set (I := amount / 10 ^ Z.of_nat decimals) in *.
  set (F := amount mod 10 ^ Z.of_nat decimals) in *.
  destruct (FormatFacts.digits_spec I HI) as (HdigI & _ & HlenI & _).
  destruct (FormatFacts.digits_spec F (proj1 HF))
    as (HdigF & HparseF & _ & HboundF).
  set (fs := padStart (digits F) decimals zero_char).
  assert (Hfs_dig : Forall is_digit fs).
  { unfold fs, padStart. apply Forall_app. split; [|assumption].
    apply Forall_forall. intros c Hc. apply repeat_spec in Hc. subst c.
    apply FormatFacts.is_digit_zero. }
  destruct (FormatFacts.trim_spec fs) as [m Htrim].
  assert (Htr_dig : Forall is_digit (trimTrailingZeros fs)).
  { rewrite Htrim in Hfs_dig. apply Forall_app in Hfs_dig. tauto. }
  assert (Hzero : F = 0 -> trimTrailingZeros fs = []).
  { intros HF0. unfold fs. rewrite HF0.
    change (digits 0) with [zero_char]. unfold padStart.
    change [zero_char] with (repeat zero_char 1).
    rewrite <- repeat_app. apply trim_zeros. }
  assert (Hnonzero : trimTrailingZeros fs = [] -> F = 0).
  { intros Hnil. rewrite Hnil in Htrim. cbn [app] in Htrim.
    assert (Hp : parseBase fs 0 = Ok (0 * 10 ^ Z.of_nat m)).
    { rewrite Htrim. apply FormatFacts.parseBase_zeros. }
    unfold fs, padStart in Hp.
    rewrite FormatFacts.parseBase_app, FormatFacts.parseBase_zeros, bind_ok,
      HparseF in Hp.
    inversion Hp as [Hval]. lia. }
  exists (digits I), (trimTrailingZeros fs).
  split; [destruct (trimTrailingZeros fs); [rewrite app_nil_r|];
          reflexivity|].
  split; [exact HdigI|].
  split; [destruct (digits I); [simpl in HlenI; lia|discriminate]|].
  split; [exact Htr_dig|].
  split.
  { destruct (Z.eq_dec F 0) as [HF0|HFn].
    - rewrite (Hzero HF0). simpl. lia.
    - assert (Hd1 : (1 <= decimals)%nat).
      { destruct decimals; [|lia]. simpl in HF. lia. }
      pose proof (HboundF decimals Hd1 (proj2 HF)) as HlenF.
      pose proof (trim_length fs) as Hl.
      assert (List.length fs = decimals).
      { unfold fs, padStart. rewrite length_app, repeat_length. lia. }
      lia. }
  split; [apply trim_last; discriminate|].
  split; [exact Hnonzero|exact Hzero].
Qed.

Lemma format_shape_witness :
  0 <= 1020
  /\ exists whole fraction : JsString.t,
       formatTokenAmount 1020 6
         = Ok (whole ++ match fraction with
                        | [] => []
                        | _ :: _ => dot_char :: fraction
                        end)
       /\ (List.length fraction <= 6)%nat
       /\ last fraction dot_char <> zero_char.
Proof.
  split; [lia|].
  destruct (format_shape 1020 6 ltac:(lia) ltac:(simpl; lia))
    as (w & f & H & _ & _ & _ & Hl & Hz & _).
  exists w, f. repeat split; assumption.
Defined.

(** A digit string reads as its leading value shifted, plus its own. *)
Lemma parseBase_digits (s : JsString.t) :
  Forall is_digit s ->
  exists v, 0 <= v
            /\ forall r, parseBase s r
                         = Ok (r * 10 ^ Z.of_nat (List.length s) + v).
Proof.
  induction 1 as [|c s (k & Hk & ->) _ (v & Hv & IH)].
  - exists 0. split; [lia|]. intros r. simpl. f_equal. lia.
  - exists (k * 10 ^ Z.of_nat (List.length s) + v). split.
    + assert (0 <= 10 ^ Z.of_nat (List.length s))
        by (apply Z.pow_nonneg; lia).
      nia.
    + intros r. cbn [parseBase List.length].
      rewrite FormatFacts.digit_of_digit_char by assumption.
      rewrite IH. f_equal. rewrite Nat2Z.inj_succ, Z.pow_succ_r by lia. lia.
Qed.

Lemma ofString_all_digits (s : JsString.t) :
  Forall is_digit s -> ofString s = parseBase s 0.
Proof.
  intros H. destruct s as [|c s].
  - reflexivity.
  - apply FormatFacts.ofString_digits; [assumption|discriminate].
Qed.

Lemma split_head (sep : ascii) (s1 s2 : JsString.t) :
  Forall (fun c => Ascii.eqb c sep = false) s1 ->
  exists p ps, split sep s2 = p :: ps
               /\ split sep (s1 ++ s2) = (s1 ++ p) :: ps.
Proof.
  intros H.
  assert (Hne : exists p ps, split sep s2 = p :: ps).
  { destruct s2 as [|c r]; [eexists; eexists; reflexivity|].
    cbn [split]. destruct (Ascii.eqb c sep); [eexists; eexists; reflexivity|].
    destruct (split sep r); eexists; eexists; reflexivity. }
  destruct Hne as (p & ps & Hs2). exists p, ps. split; [exact Hs2|].
  induction H as [|c s Hc _ IH]; [exact Hs2|].
  cbn [app split]. rewrite Hc, IH. reflexivity.
Qed.

(** X4. [parseTokenAmount] reads the whole part and the first [decimals]
    characters after the first dot and nothing else: whatever follows
    them, digits or not, further dots included, does not change the
    result. *)
Theorem parse_reads_decimals_only (whole fraction rest : JsString.t)
  (decimals : nat) :
  Forall (fun c => Ascii.eqb c dot_char = false) whole ->
  Forall (fun c => Ascii.eqb c dot_char = false) fraction ->
  List.length fraction = decimals ->
  parseTokenAmount (whole ++ dot_char :: fraction ++ rest) decimals
    = ofString (whole ++ fraction)
  /\ parseTokenAmount (whole ++ dot_char :: fraction) decimals
     = ofString (whole ++ fraction).
Proof.
  intros Hw Hf Hlen.
  assert (Gen : forall tail,
    parseTokenAmount (whole ++ dot_char :: fraction ++ tail) decimals
      = ofString (whole ++ fraction)).
  { intros tail. unfold parseTokenAmount.
    rewrite FormatFacts.split_at_sep by assumption.
    destruct (split_head dot_char fraction tail Hf) as (p & ps & _ & ->).
    cbn [nth]. unfold slice0, padEnd.
    rewrite <- app_assoc, firstn_app.
    rewrite firstn_all2 by lia.
    replace (decimals - List.length fraction)%nat with 0%nat by lia.
    cbn [firstn]. rewrite app_nil_r. reflexivity. }
  split; [apply Gen|].
  rewrite <- (app_nil_r fraction) at 1. apply Gen.
Qed.

Lemma parse_reads_decimals_only_witness :
  List.length (str "5") = 1%nat
  /\ Format.parseTokenAmount (str "1.5xyz.9") 1 = Ok 15.
Proof.
  split; [reflexivity|].
  assert (H : parseTokenAmount (str "1" ++ dot_char :: str "5" ++ str "xyz.9") 1
              = ofString (str "1" ++ str "5")).
  { apply (proj1 (parse_reads_decimals_only (str "1") (str "5")
                    (str "xyz.9") 1
                    ltac:(repeat constructor) ltac:(repeat constructor)
                    eq_refl)). }
  exact H.
Defined.

(** X5. On digit strings [parseTokenAmount] scales by [10^decimals]:
    a whole part reading [i] and a fraction of at most [decimals] digits
    reading [f] give [i * 10^decimals + f * 10^(decimals - length)], and a
    text without a dot gives [i * 10^decimals]. *)
Theorem parse_scales_by_decimals (whole fraction : JsString.t)
  (decimals : nat) :
  Forall is_digit whole -> Forall is_digit fraction ->
  (List.length fraction <= decimals)%nat ->
  exists i f,
    parseBase whole 0 = Ok i /\ parseBase fraction 0 = Ok f
    /\ 0 <= i /\ 0 <= f
    /\ parseTokenAmount (whole ++ dot_char :: fraction) decimals
       = Ok (i * 10 ^ Z.of_nat decimals
             + f * 10 ^ Z.of_nat (decimals - List.length fraction))
    /\ parseTokenAmount whole decimals = Ok (i * 10 ^ Z.of_nat decimals).
Proof.
  intros Hw Hf Hlen.
  destruct (parseBase_digits whole Hw) as (i & Hi & Pw).
  destruct (parseBase_digits fraction Hf) as (f & Hf0 & Pf).
  exists i, f.
  split; [rewrite Pw; f_equal; lia|]. split; [rewrite Pf; f_equal; lia|].
  split; [exact Hi|]. split; [exact Hf0|].
  assert (Hzeros : forall n, Forall is_digit (repeat zero_char n)).
  { intros n. apply Forall_forall. intros c Hc. apply repeat_spec in Hc.
    subst c. apply FormatFacts.is_digit_zero. }
  split.
  - unfold parseTokenAmount.
    rewrite FormatFacts.split_at_sep by (apply FormatFacts.digits_no_dot, Hw).
    rewrite FormatFacts.split_no_sep by (apply FormatFacts.digits_no_dot, Hf).
    cbn [nth]. unfold slice0, padEnd.
    rewrite firstn_all2 by (rewrite length_app, repeat_length; lia).
    rewrite ofString_all_digits
      by (repeat (apply Forall_app; split); auto).
    rewrite FormatFacts.parseBase_app, Pw, bind_ok.
    rewrite FormatFacts.parseBase_app, Pf, bind_ok.
    rewrite FormatFacts.parseBase_zeros. f_equal.
    replace (Z.of_nat decimals)
      with (Z.of_nat (List.length fraction)
            + Z.of_nat (decimals - List.length fraction)) at 1 by lia.
    rewrite Z.pow_add_r by lia. ring.
  - unfold parseTokenAmount.
    rewrite FormatFacts.split_no_sep by (apply FormatFacts.digits_no_dot, Hw).
    cbn [nth]. unfold slice0, padEnd. cbn [List.length app].
    rewrite Nat.sub_0_r, firstn_all2 by (rewrite repeat_length; lia).
    rewrite ofString_all_digits by (apply Forall_app; split; auto).
    rewrite FormatFacts.parseBase_app, Pw, bind_ok.
    rewrite FormatFacts.parseBase_zeros. f_equal; lia.
Qed.

Lemma parse_scales_by_decimals_witness :
  (List.length (str "25") <= 9)%nat
  /\ exists i f,
       parseBase (str "1") 0 = Ok i /\ parseBase (str "25") 0 = Ok f
       /\ parseTokenAmount (str "1.25") 9
          = Ok (i * 10 ^ 9 + f * 10 ^ 7).
Proof.
  split; [simpl; lia|].
  destruct (parse_scales_by_decimals (str "1") (str "25") 9)
    as (i & f & Hi & Hf & _ & _ & H & _).
  - constructor; [exists 1; split; [lia|reflexivity]|constructor].
  - constructor; [exists 2; split; [lia|reflexivity]|].
    constructor; [exists 5; split; [lia|reflexivity]|constructor].
  - simpl; lia.
  - exists i, f. split; [exact Hi|]. split; [exact Hf|]. exact H.
Defined.

End TextFacts.

(** * Progress shown for a schedule *)

Module ProgressFacts.

Import Program Info Card.

(** X6. The progress of a listing entry never goes back: for a valid
    schedule that is not revoked and whose time fields convert, the
    entries computed at [t1 <= t2] have vested amounts and percentages in
    that order, and the width of the progress bar is the percentage
    itself (the clamp at 100 never acts). *)
Theorem progress_never_decreases (pk : Pubkey) (s : VestingSchedule)
  (t1 t2 : Z) :
  isRevoked s = false -> valid s -> convertible s -> t1 <= t2 ->
  exists info1 info2,
    toVestingInfo pk s t1 = Ok info1
    /\ toVestingInfo pk s t2 = Ok info2
    /\ vestedAmount info1 <= vestedAmount info2
    /\ percentVested info1 <= percentVested info2
    /\ barWidth info1 = percentVested info1
    /\ barWidth info2 = percentVested info2.
Proof.
  intros Hr Hv Hc Hle.
  destruct (ProgramFacts.monotone_when_convertible s t1 t2 Hr Hv Hc Hle)
    as (v1 & v2 & H1 & H2 & Hmono).
  destruct (InfoFacts.vested_range s t1 Hv Hc) as (v1' & H1' & Hr1).
  destruct (InfoFacts.vested_range s t2 Hv Hc) as (v2' & H2' & Hr2).
  rewrite H1 in H1'. rewrite H2 in H2'.
  inversion H1'; inversion H2'; subst v1' v2'. clear H1' H2'.
  destruct (InfoFacts.percent_value (totalAmount s) v1 Hr1)
    as (p1 & Hp1 & Hb1 & _).
  destruct (InfoFacts.percent_value (totalAmount s) v2 Hr2)
    as (p2 & Hp2 & Hb2 & _).
  rewrite (InfoFacts.toVestingInfo_value pk s t1 v1 Hc H1), Hp1, bind_ok.
  rewrite (InfoFacts.toVestingInfo_value pk s t2 v2 Hc H2), Hp2, bind_ok.
  eexists. eexists. split; [reflexivity|]. split; [reflexivity|].
  unfold barWidth. cbn [vestedAmount percentVested].
  split; [exact Hmono|].
  split; [|split; lia].
  destruct (Z.gtb_spec (totalAmount s) 0) as [Hpos|Hzero].
  - rewrite div_ok in Hp1, Hp2 by lia. rewrite bind_ok in Hp1, Hp2.
    rewrite Z.quot_div_nonneg in Hp1, Hp2 by lia.
    rewrite toNumber_ok in Hp1
      by (assert (0 <= v1 * 100 / totalAmount s <= 100)
            by (split; [apply Z.div_pos; lia
                       |apply Z.div_le_upper_bound; lia]); lia).
    rewrite toNumber_ok in Hp2
      by (assert (0 <= v2 * 100 / totalAmount s <= 100)
            by (split; [apply Z.div_pos; lia
                       |apply Z.div_le_upper_bound; lia]); lia).
    inversion Hp1; inversion Hp2. apply Z.div_le_mono; lia.
  - inversion Hp1; inversion Hp2. lia.
Qed.

Lemma progress_never_decreases_witness :
  isRevoked (scenarioA 1700000000) = false
  /\ 1700000250 <= 1700000750
  /\ exists info1 info2,
       toVestingInfo "key"%string (scenarioA 1700000000) 1700000250 = Ok info1
       /\ toVestingInfo "key"%string (scenarioA 1700000000) 1700000750
          = Ok info2
       /\ percentVested info1 <= percentVested info2.
Proof.
  split; [reflexivity|]. split; [lia|].
  destruct (progress_never_decreases "key"%string (scenarioA 1700000000)
              1700000250 1700000750 eq_refl
              ltac:(constructor; simpl; lia) ltac:(constructor; simpl; lia)
              ltac:(lia))
    as (i1 & i2 & H1 & H2 & _ & Hp & _).
  exists i1, i2. repeat split; assumption.
Defined.

End ProgressFacts.
